(** * Examen2Disenio: the notification and report pipelines

    A shallow embedding of [ejercicio1_corregido.py] (order notifications)
    and [ejercicio2_corregido.py] (report generation), and the properties of
    their factories, strategies and orchestrators.

    Python dictionaries whose values all have one type (customer records,
    messages, log entries) are [gmap string string]; dictionaries that mix
    value types (an order, a report payload, a sale, an inventory item) are
    records with one optional field per key, [None] standing for an absent
    key.  Exceptions, the console and the clock are threaded through a state
    and error monad: a raised exception keeps the state reached so far. *)

From Stdlib Require Import ZArith String Ascii.
From stdpp Require Import base option list gmap strings pretty.

Local Open Scope string_scope.
Local Open Scope list_scope.

(** ** Exceptions *)

Inductive exn : Type :=
| KeyError (key : string)
| ValueError (msg : string)
| OverflowError (msg : string).

Inductive result (A : Type) : Type :=
| Ok (a : A)
| Err (e : exn).
Arguments Ok {A} a.
Arguments Err {A} e.

#[global] Instance result_ret : MRet result := λ A a, Ok a.
#[global] Instance result_bind : MBind result := λ A B f r,
  match r with
  | Ok a => f a
  | Err e => Err e
  end.

(** [d[key]] on a field that may be absent: [KeyError(key)] when it is. *)
Definition getitem {A} (key : string) (field : option A) : result A :=
  match field with
  | Some v => Ok v
  | None => Err (KeyError key)
  end.

(** [d[key]] on a dictionary. *)
Definition dict_getitem {A} (d : gmap string A) (key : string) : result A :=
  getitem key (d !! key).

(** [d.get(key, dflt)]. *)
Definition dict_get {A} (d : gmap string A) (key : string) (dflt : A) : A :=
  default dflt (d !! key).

(** ** The Python runtime the two programs rely on

    Numbers ([int] and [float] values), their printing, the builtin [sum],
    [repr] of a string and [datetime] are Python's own; the programs are
    embedded over any implementation of them. *)

Class Runtime : Type := {
  (** [int] and [float] values *)
  num : Type;
  (** [str(x)], what an f-string field [{x}] prints *)
  num_str : num → string;
  (** [format(x, '.2f')], what [{x:.2f}] prints *)
  num_format_2f : num → result string;
  (** [x - y] *)
  num_sub : num → num → result num;
  (** the builtin [sum] consumes its iterable one item at a time, from the
      start value [0], in an accumulator of its own *)
  sum_acc : Type;
  sum_start : sum_acc;
  sum_step : sum_acc → num → result sum_acc;
  sum_value : sum_acc → num;
  (** [repr(s)] of a string *)
  repr_str : string → string;
  (** [datetime] values, [d.isoformat()] and [d.strftime(fmt)] *)
  datetime : Type;
  isoformat : datetime → string;
  strftime : datetime → string → string;
}.

(** [sum(f(x) for x in l)]: each item is computed when the sum reaches it, so
    the first failure in input order, of [f] or of the addition, is the one
    raised. *)
Fixpoint sum_from `{Runtime} {A} (f : A → result num) (l : list A)
    (acc : sum_acc) : result num :=
  match l with
  | [] => Ok (sum_value acc)
  | x :: l' =>
      v ← f x;
      acc' ← sum_step acc v;
      sum_from f l' acc'
  end.

Definition py_sum `{Runtime} {A} (f : A → result num) (l : list A) : result num :=
  sum_from f l sum_start.

(** ** Strings *)

Definition nl : string := String (ascii_of_nat 10) "".

(** [s * n] *)
Fixpoint str_mul (s : string) (n : nat) : string :=
  match n with
  | O => ""
  | S n' => s +:+ str_mul s n'
  end.

(** [''.join(l)] *)
Definition str_join (l : list string) : string := foldr String.append "" l.

(** ** A runtime of Python integers

    [int] values with exact arithmetic, and a clock value that is a calendar
    date and time.  [format(n, '.2f')] goes through [float(n)]: the nearest
    binary64 value, ties to even, or [OverflowError]. *)
Module IntRuntime.

Definition float_of_int (n : Z) : result Z :=
  let a := Z.abs n in
  let bits := (if (a =? 0)%Z then 0 else Z.log2 a + 1)%Z in
  if (bits <=? 53)%Z then Ok n
  else
    let shift := (bits - 53)%Z in
    let q := Z.shiftr a shift in
    let r := Z.land a (Z.ones shift) in
    let half := Z.shiftl 1 (shift - 1) in
    let q' := (if (half <? r)%Z || ((r =? half)%Z && Z.odd q)
               then q + 1 else q)%Z in
    let v := Z.shiftl q' shift in
    if (Z.shiftl 1 1024 <=? v)%Z
    then Err (OverflowError "int too large to convert to float")
    else Ok (Z.sgn n * v)%Z.

Definition format_2f (n : Z) : result string :=
  v ← float_of_int n;
  mret (pretty v +:+ ".00").

Definition backslash : string := String (ascii_of_nat 92) "".

Definition hex_digit (n : nat) : string :=
  String (ascii_of_nat (if n <? 10 then 48 + n else 87 + n)%nat) "".

Fixpoint contains_char (c : ascii) (s : string) : bool :=
  match s with
  | EmptyString => false
  | String c' s' => bool_decide (c = c') || contains_char c s'
  end.

(** One character of [repr]: the quote in use and the backslash are
    escaped, control characters are written as escapes; bytes of a
    multi-byte character are kept, as [repr] keeps printable text. *)
Definition repr_char (q : ascii) (c : ascii) : string :=
  let n := nat_of_ascii c in
  if bool_decide (c = q) || (n =? 92)%nat then backslash +:+ String c ""
  else if (n =? 9)%nat then backslash +:+ "t"
  else if (n =? 10)%nat then backslash +:+ "n"
  else if (n =? 13)%nat then backslash +:+ "r"
  else if (n <? 32)%nat || (n =? 127)%nat
    then backslash +:+ "x" +:+ hex_digit (n / 16) +:+ hex_digit (n mod 16)
  else String c "".

Fixpoint repr_chars (q : ascii) (s : string) : string :=
  match s with
  | EmptyString => ""
  | String c s' => repr_char q c +:+ repr_chars q s'
  end.

Definition repr (s : string) : string :=
  let sq := ascii_of_nat 39 in
  let dq := ascii_of_nat 34 in
  let q := if contains_char sq s && negb (contains_char dq s) then dq else sq in
  String q "" +:+ repr_chars q s +:+ String q "".

Record date_time : Type := DateTime {
  year : nat; month : nat; day : nat;
  hour : nat; minute : nat; second : nat; microsecond : nat;
}.

(** [n] in decimal, zero-padded to [width] digits. *)
Definition pad (width n : nat) : string :=
  let s := pretty n in
  str_mul "0" (width - String.length s) +:+ s.

Definition iso (d : date_time) : string :=
  pad 4 (year d) +:+ "-" +:+ pad 2 (month d) +:+ "-" +:+ pad 2 (day d)
  +:+ "T" +:+ pad 2 (hour d) +:+ ":" +:+ pad 2 (minute d)
  +:+ ":" +:+ pad 2 (second d)
  +:+ (if (microsecond d =? 0)%nat then "" else "." +:+ pad 6 (microsecond d)).

(** The directives the programs use: [%Y %m %d %H %M %S]. *)
Fixpoint strf (d : date_time) (fmt : string) : string :=
  match fmt with
  | String "%" (String c rest) =>
      (if bool_decide (c = "Y"%char) then pad 4 (year d)
       else if bool_decide (c = "m"%char) then pad 2 (month d)
       else if bool_decide (c = "d"%char) then pad 2 (day d)
       else if bool_decide (c = "H"%char) then pad 2 (hour d)
       else if bool_decide (c = "M"%char) then pad 2 (minute d)
       else if bool_decide (c = "S"%char) then pad 2 (second d)
       else if bool_decide (c = "%"%char) then "%"
       else String "%" (String c ""))
      +:+ strf d rest
  | String c rest => String c (strf d rest)
  | EmptyString => ""
  end.

End IntRuntime.

Definition int_runtime : Runtime := {|
  num := Z;
  num_str := pretty;
  num_format_2f := IntRuntime.format_2f;
  num_sub := λ x y, Ok (x - y)%Z;
  sum_acc := Z;
  sum_start := 0%Z;
  sum_step := λ acc x, Ok (acc + x)%Z;
  sum_value := λ acc, acc;
  repr_str := IntRuntime.repr;
  datetime := IntRuntime.date_time;
  isoformat := IntRuntime.iso;
  strftime := IntRuntime.strf;
|}.

(** ** The interpreter state and its monad *)

Section Interp.
Context `{Runtime}.

(** The state a method runs in: the fields of [self], what [print] has
    written (one entry per call), and the clock, whose [n]-th reading is
    [clock n]. *)
Record world (Self : Type) : Type := World {
  self : Self;
  stdout : list string;
  clock : nat → datetime;
  ticks : nat;
}.
#[global] Arguments World {Self} _ _ _ _.
#[global] Arguments self {Self} _.
#[global] Arguments stdout {Self} _.
#[global] Arguments clock {Self} _.
#[global] Arguments ticks {Self} _.

Definition M (Self A : Type) : Type := world Self → result A * world Self.

#[global] Instance M_ret Self : MRet (M Self) := λ A a w, (Ok a, w).
#[global] Instance M_bind Self : MBind (M Self) := λ A B f m w,
  match m w with
  | (Ok a, w') => f a w'
  | (Err e, w') => (Err e, w')
  end.

(** A computation that touches neither the console nor the clock. *)
Definition lift {Self A} (r : result A) : M Self A := λ w, (r, w).

Definition raise {Self A} (e : exn) : M Self A := lift (Err e).

(** [print(s)] *)
Definition print {Self} (s : string) : M Self unit := λ w,
  (Ok (), World (self w) (stdout w ++ [s]) (clock w) (ticks w)).

(** [datetime.now()] *)
Definition datetime_now {Self} : M Self datetime := λ w,
  (Ok (clock w (ticks w)), World (self w) (stdout w) (clock w) (S (ticks w))).

Definition get_self {Self} : M Self Self := λ w, (Ok (self w), w).

Definition put_self {Self} (s : Self) : M Self unit := λ w,
  (Ok (), World s (stdout w) (clock w) (ticks w)).

(** [for x in l: body(x)] *)
Fixpoint for_each {Self A} (l : list A) (body : A → M Self unit) : M Self unit :=
  match l with
  | [] => mret ()
  | x :: l' => body x;; for_each l' body
  end.

End Interp.

(** ** Ejercicio 1: order notifications *)

Module Ejercicio1.
Section Program.
Context `{Runtime}.

Inductive NotificationType : Type := EMAIL | SMS | PUSH.

(** [NotificationType(value)]: the member with that value, or the
    [ValueError] of [Enum]. *)
Definition NotificationType_call (value : string) : result NotificationType :=
  if decide (value = "email") then Ok EMAIL
  else if decide (value = "sms") then Ok SMS
  else if decide (value = "push") then Ok PUSH
  else Err (ValueError (repr_str value +:+ " is not a valid NotificationType")).

(** An order: [order_id], [customer] and [total], each possibly absent. *)
Record OrderData : Type := {
  order_id : option string;
  customer : option (gmap string string);
  total : option num;
}.

Inductive INotificationSender : Type := EmailSender | SMSSender | PushSender.

Definition EmailSender_send {Self} (customer_data message_data : gmap string string)
    : M Self (gmap string string) :=
  email ← lift (dict_getitem customer_data "email");
  body ← lift (dict_getitem message_data "body");
  let subject := dict_get message_data "subject" "Notificación" in
  print ("📧 EMAIL enviado a " +:+ email);;
  print ("   Asunto: " +:+ subject);;
  print ("   Mensaje: " +:+ body +:+ nl);;
  now ← datetime_now;
  mret {[ "type" := "email"; "to" := email; "message" := body;
          "timestamp" := isoformat now ]}.

Definition SMSSender_send {Self} (customer_data message_data : gmap string string)
    : M Self (gmap string string) :=
  phone ← lift (dict_getitem customer_data "phone");
  body ← lift (dict_getitem message_data "body");
  print ("📱 SMS enviado a " +:+ phone);;
  print ("   Mensaje: " +:+ body +:+ nl);;
  now ← datetime_now;
  mret {[ "type" := "sms"; "to" := phone; "message" := body;
          "timestamp" := isoformat now ]}.

Definition PushSender_send {Self} (customer_data message_data : gmap string string)
    : M Self (gmap string string) :=
  device_id ← lift (dict_getitem customer_data "device_id");
  body ← lift (dict_getitem message_data "body");
  print ("🔔 PUSH enviada al dispositivo " +:+ device_id);;
  print ("   Mensaje: " +:+ body +:+ nl);;
  now ← datetime_now;
  mret {[ "type" := "push"; "to" := device_id; "message" := body;
          "timestamp" := isoformat now ]}.

Definition send {Self} (sender : INotificationSender)
    : gmap string string → gmap string string → M Self (gmap string string) :=
  match sender with
  | EmailSender => EmailSender_send
  | SMSSender => SMSSender_send
  | PushSender => PushSender_send
  end.

(** The customer field each sender reads and the type it records. *)
Definition recipient_field (sender : INotificationSender) : string :=
  match sender with
  | EmailSender => "email"
  | SMSSender => "phone"
  | PushSender => "device_id"
  end.

Definition sender_type (sender : INotificationSender) : string :=
  match sender with
  | EmailSender => "email"
  | SMSSender => "sms"
  | PushSender => "push"
  end.

(** The channel tags that name a member of [NotificationType], each with
    the customer field its sender reads. *)
Definition channel_fields : list (string * string) :=
  [("email", "email"); ("sms", "phone"); ("push", "device_id")].

Inductive IMessageStrategy : Type := EmailMessageStrategy | ShortMessageStrategy.

Definition create_message (strategy : IMessageStrategy)
    (order_id customer_name : string) (total : num) : gmap string string :=
  match strategy with
  | EmailMessageStrategy =>
      {[ "subject" := "Confirmación de Pedido #" +:+ order_id;
         "body" := "Estimado " +:+ customer_name +:+ ", su pedido #" +:+ order_id
                   +:+ " por $" +:+ num_str total +:+ " ha sido confirmado." ]}
  | ShortMessageStrategy =>
      {[ "body" := "Pedido #" +:+ order_id +:+ " confirmado. Total: $"
                   +:+ num_str total +:+ ". Gracias por su compra!" ]}
  end.

(** The two tables of [NotificationFactory]. *)
Definition senders (notif_type : NotificationType) : INotificationSender :=
  match notif_type with
  | EMAIL => EmailSender
  | SMS => SMSSender
  | PUSH => PushSender
  end.

Definition strategies (notif_type : NotificationType) : IMessageStrategy :=
  match notif_type with
  | EMAIL => EmailMessageStrategy
  | SMS => ShortMessageStrategy
  | PUSH => ShortMessageStrategy
  end.

Definition get_sender (type_str : string) : result INotificationSender :=
  match NotificationType_call type_str with
  | Ok notif_type => Ok (senders notif_type)
  | Err (ValueError _) =>
      Err (ValueError ("Tipo de notificación no soportado: " +:+ type_str))
  | Err e => Err e
  end.

Definition get_strategy (type_str : string) : result IMessageStrategy :=
  match NotificationType_call type_str with
  | Ok notif_type => Ok (strategies notif_type)
  | Err (ValueError _) => Ok ShortMessageStrategy
  | Err e => Err e
  end.

Record OrderNotificationSystem : Type := {
  notifications_sent : list (gmap string string);
}.

(** [OrderNotificationSystem()] *)
Definition init : OrderNotificationSystem := {| notifications_sent := [] |}.

(** [self.notifications_sent.append(log_entry)] *)
Definition notifications_sent_append (log_entry : gmap string string)
    : M OrderNotificationSystem unit :=
  s ← get_self;
  put_self {| notifications_sent := notifications_sent s ++ [log_entry] |}.

(** The body of the loop of [process_order], for one channel tag. *)
Definition notify (order_id : string) (customer : gmap string string)
    (total : num) (type_str : string) : M OrderNotificationSystem unit :=
  sender ← lift (get_sender type_str);
  message_strategy ← lift (get_strategy type_str);
  name ← lift (dict_getitem customer "name");
  let msg_data := create_message message_strategy order_id name total in
  log_entry ← send sender customer msg_data;
  notifications_sent_append log_entry.

Definition process_order (order_data : OrderData) (notification_types : list string)
    : M OrderNotificationSystem unit :=
  order_id ← lift (getitem "order_id" (order_id order_data));
  customer ← lift (getitem "customer" (customer order_data));
  total ← lift (getitem "total" (total order_data));
  print (nl +:+ str_mul "=" 50);;
  print ("Procesando pedido #" +:+ order_id);;
  name ← lift (dict_getitem customer "name");
  print ("Cliente: " +:+ name);;
  print ("Total: $" +:+ num_str total);;
  print (str_mul "=" 50 +:+ nl);;
  for_each notification_types (notify order_id customer total).

(** The lines [process_order] prints before its loop. *)
Definition order_header (order_id name : string) (total : num) : list string :=
  [nl +:+ str_mul "=" 50; "Procesando pedido #" +:+ order_id;
   "Cliente: " +:+ name; "Total: $" +:+ num_str total; str_mul "=" 50 +:+ nl].

Definition get_notification_history (w : world OrderNotificationSystem)
    : list (gmap string string) :=
  notifications_sent (self w).

End Program.
End Ejercicio1.

(** ** Ejercicio 2: report generation *)

Module Ejercicio2.
Section Program.
Context `{Runtime}.

(** The rows and the payload of a report, a field per key. *)
Record Sale : Type := {
  product : option string;
  amount : option num;
}.

Record Item : Type := {
  name : option string;
  category : option string;
  quantity : option num;
}.

Record ReportData : Type := {
  period : option string;
  sales : option (list Sale);
  items : option (list Item);
  income : option num;
  expenses : option num;
}.

(** [for x in l: text += line(x)] *)
Fixpoint append_lines {A} (line : A → result string) (l : list A)
    (text : string) : result string :=
  match l with
  | [] => Ok text
  | x :: l' =>
      s ← line x;
      append_lines line l' (text +:+ s)
  end.

Inductive ContentGenerator : Type :=
  SalesGenerator | InventoryGenerator | FinancialGenerator.

Definition timestamp_format : string := "%Y-%m-%d %H:%M:%S".

(** The title block the three generators start with. *)
Definition banner (title timestamp : string) : string :=
  str_mul "=" 60 +:+ nl
  +:+ title +:+ nl
  +:+ str_mul "=" 60 +:+ nl
  +:+ "Fecha de generación: " +:+ timestamp +:+ nl +:+ nl.

Definition sale_line (sale : Sale) : result string :=
  product ← getitem "product" (product sale);
  amount ← getitem "amount" (amount sale);
  shown ← num_format_2f amount;
  mret ("  • Producto: " +:+ product +:+ " - $" +:+ shown +:+ nl).

(** The body of [SalesGenerator.generate] after the clock is read. *)
Definition sales_text (timestamp : string) (data : ReportData) : result string :=
  let text := banner "           REPORTE DE VENTAS" timestamp in
  let text :=
    match period data with
    | Some p => text +:+ "Periodo: " +:+ p +:+ nl
    | None => text
    end in
  rows ← getitem "sales" (sales data);
  total ← py_sum (λ item, getitem "amount" (amount item)) rows;
  shown ← num_format_2f total;
  let text := text +:+ "Total de ventas: $" +:+ shown +:+ nl in
  rows ← getitem "sales" (sales data);
  let text := text +:+ "Número de transacciones: " +:+ pretty (length rows)
              +:+ nl +:+ nl in
  let text := text +:+ "Detalle de ventas:" +:+ nl in
  let text := text +:+ str_mul "-" 60 +:+ nl in
  rows ← getitem "sales" (sales data);
  append_lines sale_line rows text.

(** [item.get('category', 'General')] *)
Definition category_label (item : Item) : string :=
  default "General" (category item).

Definition item_line (item : Item) : result string :=
  name ← getitem "name" (name item);
  quantity ← getitem "quantity" (quantity item);
  mret ("  • " +:+ name +:+ " (" +:+ category_label item +:+ "): "
        +:+ num_str quantity +:+ " unidades" +:+ nl).

(** The body of [InventoryGenerator.generate] after the clock is read. *)
Definition inventory_text (timestamp : string) (data : ReportData) : result string :=
  let text := banner "           REPORTE DE INVENTARIO" timestamp in
  rows ← getitem "items" (items data);
  total_items ← py_sum (λ item, getitem "quantity" (quantity item)) rows;
  let text := text +:+ "Total de productos: " +:+ num_str total_items +:+ nl in
  rows ← getitem "items" (items data);
  let categories : gset string := list_to_set (category_label <$> rows) in
  let text := text +:+ "Categorías: " +:+ pretty (size categories) +:+ nl +:+ nl in
  let text := text +:+ "Inventario actual:" +:+ nl in
  let text := text +:+ str_mul "-" 60 +:+ nl in
  rows ← getitem "items" (items data);
  append_lines item_line rows text.

(** The body of [FinancialGenerator.generate] after the clock is read. *)
Definition financial_text (timestamp : string) (data : ReportData) : result string :=
  let text := banner "           REPORTE FINANCIERO" timestamp in
  income ← getitem "income" (income data);
  expenses ← getitem "expenses" (expenses data);
  shown ← num_format_2f income;
  let text := text +:+ "Ingresos: $" +:+ shown +:+ nl in
  shown ← num_format_2f expenses;
  let text := text +:+ "Gastos: $" +:+ shown +:+ nl in
  balance ← num_sub income expenses;
  shown ← num_format_2f balance;
  let text := text +:+ "Balance: $" +:+ shown +:+ nl in
  mret text.

Definition generator_text (generator : ContentGenerator)
    : string → ReportData → result string :=
  match generator with
  | SalesGenerator => sales_text
  | InventoryGenerator => inventory_text
  | FinancialGenerator => financial_text
  end.

(** The first field a generator reads from the payload itself that the
    payload lacks. *)
Definition absent_field (generator : ContentGenerator) (data : ReportData)
    : option string :=
  match generator with
  | SalesGenerator => if sales data is Some _ then None else Some "sales"
  | InventoryGenerator => if items data is Some _ then None else Some "items"
  | FinancialGenerator =>
      if income data is Some _
      then if expenses data is Some _ then None else Some "expenses"
      else Some "income"
  end.

(** [generator.generate(data)]: the clock is read first, then the text is
    built. *)
Definition generate {Self} (generator : ContentGenerator) (data : ReportData)
    : M Self string :=
  now ← datetime_now;
  lift (generator_text generator (strftime now timestamp_format) data).

Inductive ReportFormatter : Type := PdfFormatter | ExcelFormatter | HtmlFormatter.

(** What [format] returns, apart from its line on the console. *)
Definition envelope (formatter : ReportFormatter) (text : string) : string :=
  match formatter with
  | PdfFormatter => "[PDF FORMAT]" +:+ nl +:+ text +:+ nl +:+ "[END PDF]"
  | ExcelFormatter => "[EXCEL FORMAT]" +:+ nl +:+ text +:+ nl +:+ "[END EXCEL]"
  | HtmlFormatter => "<html><body><pre>" +:+ text +:+ "</pre></body></html>"
  end.

Definition format_notice (formatter : ReportFormatter) : string :=
  match formatter with
  | PdfFormatter => "📄 Generando reporte en formato PDF..."
  | ExcelFormatter => "📊 Generando reporte en formato Excel..."
  | HtmlFormatter => "🌐 Generando reporte en formato HTML..."
  end.

(** [formatter.format(text)] *)
Definition format {Self} (formatter : ReportFormatter) (text : string)
    : M Self string :=
  print (format_notice formatter);;
  mret (envelope formatter text).

Inductive DeliveryChannel : Type := EmailDelivery | DownloadDelivery | CloudDelivery.

(** [delivery.deliver(document, meta_data)] *)
Definition deliver {Self} (delivery : DeliveryChannel) (document : string)
    (meta_data : gmap string string) : M Self unit :=
  match delivery with
  | EmailDelivery =>
      print "📧 Enviando reporte por email...";;
      print "   Destinatario: admin@company.com"
  | DownloadDelivery =>
      type ← lift (dict_getitem meta_data "type");
      now ← datetime_now;
      fmt ← lift (dict_getitem meta_data "format");
      let filename := "report_" +:+ type +:+ "_" +:+ strftime now "%Y%m%d_%H%M%S"
                      +:+ "." +:+ fmt in
      print ("💾 Reporte disponible para descarga: " +:+ filename)
  | CloudDelivery =>
      print "☁️  Subiendo reporte a la nube...";;
      type ← lift (dict_getitem meta_data "type");
      print ("   URL: https://cloud.company.com/reports/" +:+ type)
  end.

(** [ReportFactory] has no fields. *)
Inductive ReportFactory : Type := ReportFactory_new.

Definition get_generator (factory : ReportFactory) (report_type : string)
    : option ContentGenerator :=
  if decide (report_type = "sales") then Some SalesGenerator
  else if decide (report_type = "inventory") then Some InventoryGenerator
  else if decide (report_type = "financial") then Some FinancialGenerator
  else None.

Definition get_formatter (factory : ReportFactory) (output_format : string)
    : ReportFormatter :=
  if decide (output_format = "pdf") then PdfFormatter
  else if decide (output_format = "excel") then ExcelFormatter
  else if decide (output_format = "html") then HtmlFormatter
  else HtmlFormatter.

Definition get_delivery (factory : ReportFactory) (delivery_method : string)
    : DeliveryChannel :=
  if decide (delivery_method = "email") then EmailDelivery
  else if decide (delivery_method = "download") then DownloadDelivery
  else if decide (delivery_method = "cloud") then CloudDelivery
  else DownloadDelivery.

Record ReportSystem : Type := {
  reports_generated : list (gmap string string);
  factory : ReportFactory;
}.

(** [ReportSystem()] *)
Definition init : ReportSystem :=
  {| reports_generated := []; factory := ReportFactory_new |}.

(** [self.reports_generated.append(entry)] *)
Definition reports_generated_append (entry : gmap string string)
    : M ReportSystem unit :=
  s ← get_self;
  put_self {| reports_generated := reports_generated s ++ [entry];
              factory := factory s |}.

Definition generate_report (report_type : string) (data : ReportData)
    (output_format delivery_method : string) : M ReportSystem (option string) :=
  s ← get_self;
  let generator := get_generator (factory s) report_type in
  let formatter := get_formatter (factory s) output_format in
  let delivery := get_delivery (factory s) delivery_method in
  match generator with
  | None =>
      print "Error: No se pudo generar el reporte";;
      mret None
  | Some generator =>
      raw_content ← generate generator data;
      final_document ← format formatter raw_content;
      let meta_data : gmap string string :=
        {[ "type" := report_type; "format" := output_format ]} in
      deliver delivery final_document meta_data;;
      now ← datetime_now;
      let timestamp := strftime now timestamp_format in
      reports_generated_append
        {[ "type" := report_type; "format" := output_format;
           "delivery" := delivery_method; "timestamp" := timestamp ]};;
      print (nl +:+ "✅ Reporte generado exitosamente" +:+ nl);;
      print final_document;;
      print (nl +:+ str_mul "=" 60 +:+ nl);;
      mret (Some final_document)
  end.

Definition get_report_history (w : world ReportSystem) : list (gmap string string) :=
  reports_generated (self w).

(** The tags the three lookups of [ReportFactory] compare with. *)
Definition report_types : list string := ["sales"; "inventory"; "financial"].
Definition output_formats : list string := ["pdf"; "excel"; "html"].
Definition delivery_methods : list string := ["email"; "download"; "cloud"].

End Program.
End Ejercicio2.

(** ** Sample data, over the runtime of integers *)

Module Samples.
#[local] Existing Instance int_runtime.

(** A clock that reads 15 January 2024, 10:30 and [n] seconds at its
    [n]-th reading. *)
Definition clock0 (n : nat) : IntRuntime.date_time :=
  IntRuntime.DateTime 2024 1 15 10 30 (n mod 60) 0.

Definition notifier0 : world Ejercicio1.OrderNotificationSystem :=
  World Ejercicio1.init [] clock0 0.

Definition reporter0 : world Ejercicio2.ReportSystem :=
  World Ejercicio2.init [] clock0 0.

Definition ana : gmap string string :=
  {[ "name" := "Ana"; "email" := "a@x.com"; "phone" := "+1";
     "device_id" := "D1" ]}.

Definition order_ana : Ejercicio1.OrderData :=
  {| Ejercicio1.order_id := Some "ORD-001";
     Ejercicio1.customer := Some ana;
     Ejercicio1.total := Some 150%Z |}.

(** A customer record with an address and no name. *)
Definition order_no_name : Ejercicio1.OrderData :=
  {| Ejercicio1.order_id := Some "ORD-002";
     Ejercicio1.customer := Some {[ "email" := "a@x.com" ]};
     Ejercicio1.total := Some 75%Z |}.

(** A customer record with a telephone and no e-mail address. *)
Definition order_no_email : Ejercicio1.OrderData :=
  {| Ejercicio1.order_id := Some "ORD-003";
     Ejercicio1.customer := Some {[ "name" := "Carlos"; "phone" := "+34" ]};
     Ejercicio1.total := Some 75%Z |}.

Definition sale (p : string) (a : Z) : Ejercicio2.Sale :=
  {| Ejercicio2.product := Some p; Ejercicio2.amount := Some a |}.

Definition item (n : string) (c : option string) (q : Z) : Ejercicio2.Item :=
  {| Ejercicio2.name := Some n; Ejercicio2.category := c;
     Ejercicio2.quantity := Some q |}.

Definition no_data : Ejercicio2.ReportData :=
  {| Ejercicio2.period := None; Ejercicio2.sales := None;
     Ejercicio2.items := None; Ejercicio2.income := None;
     Ejercicio2.expenses := None |}.

Definition sales_data : Ejercicio2.ReportData :=
  {| Ejercicio2.period := Some "Enero 2024";
     Ejercicio2.sales := Some [sale "Laptop HP" 900; sale "Mouse Logitech" 25;
                               sale "Teclado" 120];
     Ejercicio2.items := None; Ejercicio2.income := None;
     Ejercicio2.expenses := None |}.

Definition inventory_data : Ejercicio2.ReportData :=
  {| Ejercicio2.period := None; Ejercicio2.sales := None;
     Ejercicio2.items := Some [item "Laptop HP" (Some "Computadoras") 15;
                               item "Mouse Logitech" (Some "Accesorios") 50;
                               item "Cable" None 30;
                               item "Teclado" (Some "Accesorios") 20];
     Ejercicio2.income := None; Ejercicio2.expenses := None |}.

Definition financial_data : Ejercicio2.ReportData :=
  {| Ejercicio2.period := None; Ejercicio2.sales := None;
     Ejercicio2.items := None; Ejercicio2.income := Some 50000%Z;
     Ejercicio2.expenses := Some 32000%Z |}.

Definition stamp0 : string := "2024-01-15 10:30:00".

(** The text the generators produce from the sample payloads. *)
Definition text_of (generator : Ejercicio2.ContentGenerator)
    (data : Ejercicio2.ReportData) : string :=
  match Ejercicio2.generator_text generator stamp0 data with
  | Ok text => text
  | Err _ => ""
  end.

Definition sales_raw : string :=
  Eval vm_compute in text_of Ejercicio2.SalesGenerator sales_data.

Definition inventory_raw : string :=
  Eval vm_compute in text_of Ejercicio2.InventoryGenerator inventory_data.

End Samples.

(** ** The console as a frame *)

Section Frame.
Context `{Runtime}.

(** The state [w] with the console replaced by [out]. *)
Definition with_stdout {Self} (out : list string) (w : world Self) : world Self :=
  World (self w) out (clock w) (ticks w).

(** A computation that never reads the console: from any state it does
    what it does from the same state with an empty console, and what it
    prints there comes after what was on the console already. *)
Definition console_blind {Self A} (m : M Self A) : Prop :=
  ∀ w, m w = ((m (with_stdout [] w)).1,
              with_stdout (stdout w ++ stdout (m (with_stdout [] w)).2)
                (m (with_stdout [] w)).2).

End Frame.

(** ** More sample data *)

Module MoreSamples.
#[local] Existing Instance int_runtime.
Import Samples.

(** The state after the order of Ana has been notified by e-mail. *)
Definition notifier1 : world Ejercicio1.OrderNotificationSystem :=
  (Ejercicio1.process_order order_ana ["email"] notifier0).2.

Definition sale_without_product : Ejercicio2.Sale :=
  {| Ejercicio2.product := None; Ejercicio2.amount := Some 900%Z |}.

Definition sale_without_amount : Ejercicio2.Sale :=
  {| Ejercicio2.product := Some "Mouse"; Ejercicio2.amount := None |}.

(** Three sales: the first has no product, the second no amount. *)
Definition sales_without_amount : Ejercicio2.ReportData :=
  {| Ejercicio2.period := None;
     Ejercicio2.sales :=
       Some [sale_without_product; sale_without_amount; sale "Teclado" 120];
     Ejercicio2.items := None; Ejercicio2.income := None;
     Ejercicio2.expenses := None |}.

(** A payload with no sale and no item. *)
Definition empty_data : Ejercicio2.ReportData :=
  {| Ejercicio2.period := None; Ejercicio2.sales := Some [];
     Ejercicio2.items := Some []; Ejercicio2.income := None;
     Ejercicio2.expenses := None |}.

(** Two items, neither with a category. *)
Definition plain_inventory : Ejercicio2.ReportData :=
  {| Ejercicio2.period := None; Ejercicio2.sales := None;
     Ejercicio2.items := Some [item "Cable" None 30; item "Tornillo" None 100];
     Ejercicio2.income := None; Ejercicio2.expenses := None |}.

End MoreSamples.

(** * Properties *)

(** ** The monad *)

Section Interp_facts.
Context `{Runtime} {Self : Type}.
Implicit Types w : world Self.

Lemma bind_run {A B} (m : M Self A) (f : A → M Self B) w :
  (m ≫= f) w
  = match m w with
    | (Ok a, w') => f a w'
    | (Err e, w') => (Err e, w')
    end.
Proof. reflexivity. Qed.

Lemma bind_lift {A B} (r : result A) (f : A → M Self B) w :
  (lift r ≫= f) w = match r with Ok a => f a w | Err e => (Err e, w) end.
Proof. by destruct r. Qed.

Lemma bind_ret {A B} (a : A) (f : A → M Self B) w : (mret a ≫= f) w = f a w.
Proof. reflexivity. Qed.

Lemma bind_print {B} (s : string) (f : unit → M Self B) w :
  (print s ≫= f) w = f () (World (self w) (stdout w ++ [s]) (clock w) (ticks w)).
Proof. reflexivity. Qed.

Lemma bind_now {B} (f : datetime → M Self B) w :
  (datetime_now ≫= f) w
  = f (clock w (ticks w)) (World (self w) (stdout w) (clock w) (S (ticks w))).
Proof. reflexivity. Qed.

Lemma bind_get_self {B} (f : Self → M Self B) w : (get_self ≫= f) w = f (self w) w.
Proof. reflexivity. Qed.

Lemma bind_put_self {B} (s : Self) (f : unit → M Self B) w :
  (put_self s ≫= f) w = f () (World s (stdout w) (clock w) (ticks w)).
Proof. reflexivity. Qed.

Lemma run_print (s : string) w :
  print s w = (Ok (), World (self w) (stdout w ++ [s]) (clock w) (ticks w)).
Proof. reflexivity. Qed.

Lemma run_put_self (s : Self) w :
  put_self s w = (Ok (), World s (stdout w) (clock w) (ticks w)).
Proof. reflexivity. Qed.

Lemma run_lift {A} (r : result A) w : lift r w = (r, w).
Proof. reflexivity. Qed.

Lemma run_ret {A} (a : A) w : (mret a : M Self A) w = (Ok a, w).
Proof. reflexivity. Qed.

Lemma bind_assoc {A B C} (m : M Self A) (f : A → M Self B) (g : B → M Self C) w :
  ((m ≫= f) ≫= g) w = (m ≫= λ a, f a ≫= g) w.
Proof.
  rewrite !bind_run. destruct (m w) as [[a|e] w']; [|done]. by rewrite bind_run.
Qed.

(** A loop over [l1 ++ l2] is the loop over [l1] followed by the loop over
    [l2]. *)
Lemma for_each_app {A} (l1 l2 : list A) (body : A → M Self unit) w :
  for_each (l1 ++ l2) body w = (for_each l1 body;; for_each l2 body) w.
Proof.
  revert w. induction l1 as [|x l1 IH]; intros w; [done|].
  simpl. rewrite !bind_run. destruct (body x w) as [[[]|e] w1]; [|done].
  rewrite IH. by rewrite bind_run.
Qed.

End Interp_facts.

Create Rewrite HintDb run.
#[global] Hint Rewrite @bind_assoc @bind_lift @bind_ret @bind_print @bind_now
  @bind_get_self @bind_put_self @run_print @run_put_self @run_lift @run_ret : run.

(** Runs the straight-line part of a computation. *)
Ltac run := repeat (autorewrite with run; cbn [self stdout clock ticks getitem]).

(** ** Ejercicio 1 *)

Section Ejercicio1_facts.
Context `{Runtime}.
Import Ejercicio1.
Implicit Types w : world OrderNotificationSystem.

Lemma NotificationType_call_unsupported tag :
  tag ∉ channel_fields.*1 →
  NotificationType_call tag
  = Err (ValueError (repr_str tag +:+ " is not a valid NotificationType")).
Proof.
  intros Hn. unfold NotificationType_call.
  repeat case_decide; subst; try done; exfalso; apply Hn; set_solver.
Qed.

Lemma get_sender_unsupported tag :
  tag ∉ channel_fields.*1 →
  get_sender tag = Err (ValueError ("Tipo de notificación no soportado: " +:+ tag)).
Proof.
  intros Hn. unfold get_sender. by rewrite NotificationType_call_unsupported.
Qed.

Lemma get_sender_supported tag field :
  (tag, field) ∈ channel_fields →
  ∃ sender, get_sender tag = Ok sender
            ∧ sender_type sender = tag ∧ recipient_field sender = field.
Proof.
  unfold channel_fields. intros Hin.
  repeat (apply elem_of_cons in Hin as [[= -> ->]|Hin]);
    [by exists EmailSender|by exists SMSSender|by exists PushSender|].
  by apply elem_of_nil in Hin.
Qed.

Lemma get_strategy_ok tag :
  get_strategy tag
  = Ok (if decide (tag = "email") then EmailMessageStrategy else ShortMessageStrategy).
Proof.
  unfold get_strategy, NotificationType_call. by repeat case_decide; subst.
Qed.

Lemma create_message_body strategy oid nm tot :
  is_Some (create_message strategy oid nm tot !! "body").
Proof. destruct strategy; simpl; eexists; by simplify_map_eq. Qed.

(** The entry a sender returns. *)
Lemma send_ok {Self} sender (cust msg : gmap string string) addr body
    (w : world Self) :
  cust !! recipient_field sender = Some addr →
  msg !! "body" = Some body →
  ∃ lines,
    send sender cust msg w
    = (Ok {[ "type" := sender_type sender; "to" := addr; "message" := body;
             "timestamp" := isoformat (clock w (ticks w)) ]},
       World (self w) (stdout w ++ lines) (clock w) (S (ticks w))).
Proof.
  intros Haddr Hbody.
  destruct sender; simpl in Haddr; simpl;
    unfold EmailSender_send, SMSSender_send, PushSender_send, dict_getitem;
    rewrite Haddr, Hbody; run; rewrite <- ?(assoc_L (++)); by eexists.
Qed.

(** A sender whose customer field is absent raises [KeyError] and leaves
    the state as it was. *)
Lemma send_missing {Self} sender (cust msg : gmap string string) (w : world Self) :
  cust !! recipient_field sender = None →
  send sender cust msg w = (Err (KeyError (recipient_field sender)), w).
Proof.
  intros Haddr.
  destruct sender; simpl in Haddr; simpl;
    unfold EmailSender_send, SMSSender_send, PushSender_send, dict_getitem;
    rewrite Haddr; by run.
Qed.

(** One turn of the loop on a supported tag whose field is present. *)
Lemma notify_supported oid cust tot nm addr tag field w :
  (tag, field) ∈ channel_fields →
  cust !! "name" = Some nm →
  cust !! field = Some addr →
  ∃ entry lines,
    notify oid cust tot tag w
    = (Ok (), World {| notifications_sent := notifications_sent (self w) ++ [entry] |}
                (stdout w ++ lines) (clock w) (S (ticks w)))
    ∧ entry !! "type" = Some tag ∧ entry !! "to" = Some addr.
Proof.
  intros Hin Hnm Haddr.
  destruct (get_sender_supported _ _ Hin) as (sender & Hs & <- & <-).
  unfold notify, dict_getitem. rewrite Hs, get_strategy_ok, Hnm. run.
  match goal with |- context [create_message ?s _ _ _] =>
    destruct (create_message_body s oid nm tot) as [body Hbody] end.
  destruct (send_ok sender cust _ addr body w Haddr Hbody) as [lines Hsend].
  rewrite bind_run, Hsend. unfold notifications_sent_append. run.
  eexists _, lines. split; [reflexivity|]. by simplify_map_eq.
Qed.

(** One turn of the loop on an unsupported tag: the [ValueError] of
    [get_sender], in an unchanged state. *)
Lemma notify_unsupported oid cust tot tag w :
  tag ∉ channel_fields.*1 →
  notify oid cust tot tag w
  = (Err (ValueError ("Tipo de notificación no soportado: " +:+ tag)), w).
Proof. intros Hn. unfold notify. rewrite get_sender_unsupported by done. by run. Qed.

(** The loop on supported tags whose fields are present: one entry per
    tag, in order. *)
Lemma for_each_notify_supported oid cust tot nm tags w :
  cust !! "name" = Some nm →
  Forall (λ tag, ∃ field, (tag, field) ∈ channel_fields ∧ is_Some (cust !! field)) tags →
  ∃ entries lines,
    for_each tags (notify oid cust tot) w
    = (Ok (), World {| notifications_sent := notifications_sent (self w) ++ entries |}
                (stdout w ++ lines) (clock w) (length tags + ticks w))
    ∧ Forall2 (λ tag entry,
                 entry !! "type" = Some tag
                 ∧ ∃ field, (tag, field) ∈ channel_fields
                            ∧ entry !! "to" = cust !! field) tags entries.
Proof.
  intros Hnm Htags. revert w.
  induction Htags as [|tag tags (field & Hin & [addr Haddr]) _ IH]; intros w.
  - exists [], []. rewrite !app_nil_r. split; [|constructor].
    by destruct w as [[?] ? ? ?].
  - destruct (notify_supported oid cust tot nm addr tag field w Hin Hnm Haddr)
      as (entry & lines & Hrun & Htype & Hto).
    simpl. rewrite bind_run, Hrun.
    edestruct IH as (entries & lines' & -> & Hall). simpl.
    exists (entry :: entries), (lines ++ lines').
    rewrite <- ?(assoc_L (++)), Nat.add_succ_r. split; [done|].
    constructor; [|done]. split; [done|]. exists field. by rewrite Haddr.
Qed.

Lemma process_order_loop od oid cust tot nm tags w :
  order_id od = Some oid → customer od = Some cust → total od = Some tot →
  cust !! "name" = Some nm →
  process_order od tags w
  = for_each tags (notify oid cust tot)
      (World (self w) (stdout w ++ order_header oid nm tot) (clock w) (ticks w)).
Proof.
  intros Hoid Hcust Htot Hnm. unfold process_order, dict_getitem.
  rewrite Hoid, Hcust, Htot. run. rewrite Hnm. run.
  by rewrite <- ?(assoc_L (++)).
Qed.

(** C9. The message-strategy lookup returns a strategy for every tag.  For
    a tag outside email, sms and push it is the short-message strategy,
    whose message has a body and no subject; for the tag email it is the
    e-mail strategy, whose message has a subject and a body. *)
Theorem get_strategy_never_fails (tag oid nm : string) (tot : num) :
  ∃ strategy,
    get_strategy tag = Ok strategy
    ∧ is_Some (create_message strategy oid nm tot !! "body")
    ∧ (tag = "email" →
       strategy = EmailMessageStrategy
       ∧ is_Some (create_message strategy oid nm tot !! "subject"))
    ∧ (tag ∉ channel_fields.*1 →
       strategy = ShortMessageStrategy
       ∧ create_message strategy oid nm tot !! "subject" = None).
Proof.
  eexists. split; [apply get_strategy_ok|].
  split; [apply create_message_body|]. split.
  - intros ->. rewrite decide_True by done. split; [done|].
    simpl. eexists. by simplify_map_eq.
  - intros Hn. rewrite decide_False; [done|].
    intros ->. apply Hn. set_solver.
Qed.

(** C4, as amended.  For a supported channel tag [C] and an order that
    has an order id, a total and a customer record with a name and the
    field [C] needs, [process_order] on the one-element list [[C]] returns
    normally and appends exactly one entry, whose type is [C] and whose
    recipient is that field of the customer record. *)
Theorem process_order_single_channel od oid cust tot nm addr C field w :
  (C, field) ∈ channel_fields →
  order_id od = Some oid → customer od = Some cust → total od = Some tot →
  cust !! "name" = Some nm →
  cust !! field = Some addr →
  ∃ entry w',
    process_order od [C] w = (Ok (), w')
    ∧ get_notification_history w' = get_notification_history w ++ [entry]
    ∧ entry !! "type" = Some C
    ∧ entry !! "to" = Some addr.
Proof.
  intros Hin Hoid Hcust Htot Hnm Haddr.
  rewrite (process_order_loop od oid cust tot nm) by done.
  simpl. rewrite bind_run.
  edestruct (notify_supported oid cust tot nm addr C field) as
    (entry & lines & -> & Htype & Hto); [done..|].
  by eexists entry, _.
Qed.

(** C1, as amended.  When the order has an order id, a total and a
    customer record with a name, every tag before [bad] is supported and
    finds its field in the customer record, and [bad] is not a supported
    tag, [process_order] raises the [ValueError] of [bad]; it stops in the
    state that processing the tags before [bad] alone ends in, so neither
    [bad] nor a later tag adds an entry, prints or reads the clock, and the
    history has gained one entry for each earlier tag, in input order. *)
Theorem process_order_unsupported_tag od oid cust tot nm pre bad post w :
  order_id od = Some oid → customer od = Some cust → total od = Some tot →
  cust !! "name" = Some nm →
  Forall (λ tag, ∃ field, (tag, field) ∈ channel_fields
                          ∧ is_Some (cust !! field)) pre →
  bad ∉ channel_fields.*1 →
  ∃ entries w',
    process_order od (pre ++ bad :: post) w
    = (Err (ValueError ("Tipo de notificación no soportado: " +:+ bad)), w')
    ∧ process_order od pre w = (Ok (), w')
    ∧ get_notification_history w' = get_notification_history w ++ entries
    ∧ Forall2 (λ tag entry,
                 entry !! "type" = Some tag
                 ∧ ∃ field, (tag, field) ∈ channel_fields
                            ∧ entry !! "to" = cust !! field) pre entries.
Proof.
  intros Hoid Hcust Htot Hnm Hpre Hbad.
  rewrite !(process_order_loop od oid cust tot nm) by done.
  rewrite for_each_app, bind_run.
  edestruct (for_each_notify_supported oid cust tot nm pre) as
    (entries & lines & -> & Hall); [done..|].
  exists entries. eexists. split; [|by split].
  simpl. by rewrite bind_run, notify_unsupported.
Qed.

End Ejercicio1_facts.

Section Ejercicio1_samples.
#[local] Existing Instance int_runtime.
Import Ejercicio1 Samples.

(** C9 at the tag fax. *)
Lemma get_strategy_never_fails_witness :
  ∃ strategy,
    get_strategy "fax" = Ok strategy
    ∧ strategy = ShortMessageStrategy
    ∧ create_message strategy "ORD-001" "Ana" 150%Z !! "subject" = None.
Proof.
  destruct (get_strategy_never_fails (H := int_runtime) "fax" "ORD-001" "Ana" 150%Z)
    as (strategy & Hget & _ & _ & Hshort).
  exists strategy. split; [exact Hget|].
  apply Hshort. compute_done.
Defined.

(** C4 as stated fails: a customer record with the e-mail address and no
    name. [process_order] raises at the name and appends nothing. *)
Lemma process_order_single_channel_needs_name :
  let od := order_no_name in
  let run := process_order od ["email"] notifier0 in
  ("email", "email") ∈ channel_fields
  ∧ (∃ cust, customer od = Some cust ∧ is_Some (cust !! "email"))
  ∧ run.1 = Err (KeyError "name")
  ∧ ¬ ∃ entry,
        get_notification_history run.2
        = get_notification_history notifier0 ++ [entry].
Proof.
  split; [compute_done|]. split; [by eexists|]. split; [by vm_compute|].
  intros [entry Hentry]. vm_compute in Hentry. discriminate Hentry.
Qed.

(** The amended C4 at the order of Ana and the tag sms. *)
Lemma process_order_single_channel_witness :
  ∃ entry w',
    process_order order_ana ["sms"] notifier0 = (Ok (), w')
    ∧ get_notification_history w'
      = get_notification_history notifier0 ++ [entry]
    ∧ entry !! "type" = Some "sms"
    ∧ entry !! "to" = Some "+1".
Proof.
  apply (process_order_single_channel (H := int_runtime) order_ana
           "ORD-001" ana 150%Z "Ana" "+1" "sms" "phone");
    first [reflexivity | compute_done].
Defined.

(** C1 as stated fails: the tag fax is unsupported, but the customer record
    has no e-mail address, and the [KeyError] of the earlier tag email is what
    [process_order] raises. *)
Lemma process_order_unsupported_tag_needs_fields :
  let run := process_order order_no_email ["email"; "fax"]
               notifier0 in
  "email" ∈ channel_fields.*1
  ∧ ("fax" ∉ channel_fields.*1)
  ∧ run.1 = Err (KeyError "email")
  ∧ ¬ ∃ msg, run.1 = Err (ValueError msg).
Proof.
  split; [compute_done|]. split; [compute_done|]. split; [by vm_compute|].
  intros [msg Hmsg]. vm_compute in Hmsg. discriminate Hmsg.
Qed.

(** The amended C1 at the order of Ana and the tags email, fax, sms. *)
Lemma process_order_unsupported_tag_witness :
  ∃ entries w',
    process_order order_ana (["email"] ++ ("fax" :: ["sms"]))
      notifier0
    = (Err (ValueError ("Tipo de notificación no soportado: " +:+ "fax")), w')
    ∧ process_order order_ana ["email"] notifier0 = (Ok (), w')
    ∧ get_notification_history w'
      = get_notification_history notifier0 ++ entries
    ∧ Forall2 (λ tag entry,
                 entry !! "type" = Some tag
                 ∧ ∃ field, (tag, field) ∈ channel_fields
                            ∧ entry !! "to" = ana !! field)
        ["email"] entries.
Proof.
  apply (process_order_unsupported_tag (H := int_runtime) order_ana
           "ORD-001" ana 150%Z "Ana" ["email"] "fax" ["sms"]);
    try reflexivity.
  - repeat constructor. exists "email". split; [compute_done|by eexists].
  - compute_done.
Defined.

End Ejercicio1_samples.

(** ** Ejercicio 2: the factory and the orchestrator *)

Section Ejercicio2_facts.
Context `{Runtime}.
Import Ejercicio2.
Implicit Types w : world ReportSystem.

Lemma get_generator_unknown f rt :
  rt ∉ report_types → get_generator f rt = None.
Proof.
  intros Hn. unfold get_generator.
  repeat case_decide; subst; try done; exfalso; apply Hn; set_solver.
Qed.

Lemma get_generator_known f rt :
  rt ∈ report_types ↔ is_Some (get_generator f rt).
Proof.
  split.
  - unfold report_types. intros Hin.
    repeat (apply elem_of_cons in Hin as [->|Hin]); [by eexists..|].
    by apply elem_of_nil in Hin.
  - intros [g Hg]. destruct (decide (rt ∈ report_types)) as [|Hn]; [done|].
    by rewrite get_generator_unknown in Hg.
Qed.

Lemma get_formatter_unknown f tag :
  tag ∉ output_formats → get_formatter f tag = HtmlFormatter.
Proof.
  intros Hn. unfold get_formatter.
  repeat case_decide; subst; try done; exfalso; apply Hn; set_solver.
Qed.

Lemma get_delivery_unknown f tag :
  tag ∉ delivery_methods → get_delivery f tag = DownloadDelivery.
Proof.
  intros Hn. unfold get_delivery.
  repeat case_decide; subst; try done; exfalso; apply Hn; set_solver.
Qed.

(** [deliver] returns normally on the meta data [generate_report] builds:
    it prints, and the download channel also reads the clock. *)
Lemma deliver_ok {Self} delivery document (rt fmt : string) (w : world Self) :
  ∃ lines n,
    deliver delivery document {[ "type" := rt; "format" := fmt ]} w
    = (Ok (), World (self w) (stdout w ++ lines) (clock w) (n + ticks w)).
Proof.
  destruct delivery; simpl; unfold dict_getitem.
  - run. rewrite <- ?(assoc_L (++)). by eexists _, 0.
  - rewrite lookup_insert_eq. run.
    rewrite lookup_insert_ne, lookup_singleton_eq by done. run.
    by eexists _, 1.
  - run. rewrite lookup_insert_eq. run. rewrite <- ?(assoc_L (++)). by eexists _, 0.
Qed.

(** The run of [generate_report] once the generator has produced its
    text. *)
Lemma generate_report_ok rt g data fmt dm w raw :
  get_generator (factory (self w)) rt = Some g →
  generator_text g (strftime (clock w (ticks w)) timestamp_format) data = Ok raw →
  ∃ timestamp lines n,
    generate_report rt data fmt dm w
    = (Ok (Some (envelope (get_formatter (factory (self w)) fmt) raw)),
       World {| reports_generated :=
                  reports_generated (self w)
                  ++ [ {[ "type" := rt; "format" := fmt; "delivery" := dm;
                          "timestamp" := timestamp ]} ];
                factory := factory (self w) |}
         (stdout w ++ lines) (clock w) (n + ticks w)).
Proof.
  intros Hg Hraw. unfold generate_report. run. rewrite Hg.
  unfold generate, format. run. rewrite Hraw. run.
  match goal with |- context [(deliver ?d ?doc _ ≫= _) ?w1] =>
    destruct (deliver_ok d doc rt fmt w1) as (lines & n & Hd) end.
  rewrite bind_run, Hd. unfold reports_generated_append. run.
  rewrite <- ?(assoc_L (++)). eexists _, _, (S (S n)).
  by rewrite !Nat.add_succ_r, !Nat.add_succ_l.
Qed.

(** A generator raises [KeyError] at the first field of the payload it
    does not find. *)
Lemma generator_text_absent_field g timestamp data field :
  absent_field g data = Some field →
  generator_text g timestamp data = Err (KeyError field).
Proof.
  destruct g; simpl; unfold sales_text, inventory_text, financial_text.
  - destruct (sales data); [done|]. by intros [= <-].
  - destruct (items data); [done|]. by intros [= <-].
  - destruct (income data); [|by intros [= <-]].
    destruct (expenses data); [done|]. by intros [= <-].
Qed.

(** The run of [generate_report] when no generator is found. *)
Lemma generate_report_none rt data fmt dm w :
  get_generator (factory (self w)) rt = None →
  generate_report rt data fmt dm w
  = (Ok None, World (self w) (stdout w ++ ["Error: No se pudo generar el reporte"])
                (clock w) (ticks w)).
Proof. intros Hg. unfold generate_report. run. rewrite Hg. by run. Qed.

(** The run of [generate_report] when the generator raises. *)
Lemma generate_report_err rt g data fmt dm w e :
  get_generator (factory (self w)) rt = Some g →
  generator_text g (strftime (clock w (ticks w)) timestamp_format) data = Err e →
  generate_report rt data fmt dm w
  = (Err e, World (self w) (stdout w) (clock w) (S (ticks w))).
Proof.
  intros Hg Hraw. unfold generate_report. run. rewrite Hg. unfold generate. run.
  rewrite Hraw. by run.
Qed.

(** C2. For a report type outside sales, inventory and financial,
    [generate_report] returns [None] without raising; the report system,
    and so its history, is unchanged; the console gains the one line of
    the error and none of a formatter or a delivery, and the clock, which
    every generator reads first, is not read. *)
Theorem generate_report_unknown_type rt data fmt dm w :
  rt ∉ report_types →
  generate_report rt data fmt dm w
  = (Ok None, World (self w) (stdout w ++ ["Error: No se pudo generar el reporte"])
                (clock w) (ticks w))
  ∧ get_report_history (generate_report rt data fmt dm w).2 = get_report_history w.
Proof.
  intros Hn.
  by rewrite generate_report_none by by apply get_generator_unknown.
Qed.

(** C3. For a recognized report type, the generator fails with the
    [KeyError] of the field when the payload lacks a field it reads; and
    whenever the generator fails, [generate_report] raises that same
    exception, the report system, and so its history, is unchanged, and the
    console is as it was: neither the formatter nor the delivery has printed.
    Only the clock has been read, by the generator. *)
Theorem generate_report_generator_failure rt g data fmt dm w :
  get_generator (factory (self w)) rt = Some g →
  let timestamp := strftime (clock w (ticks w)) timestamp_format in
  (∀ field, absent_field g data = Some field →
            generator_text g timestamp data = Err (KeyError field))
  ∧ (∀ e, generator_text g timestamp data = Err e →
          generate_report rt data fmt dm w
          = (Err e, World (self w) (stdout w) (clock w) (S (ticks w)))
          ∧ get_report_history (generate_report rt data fmt dm w).2
            = get_report_history w).
Proof.
  intros Hg timestamp. split.
  - intros field Habsent. by apply generator_text_absent_field.
  - intros e Hraw. by rewrite (generate_report_err rt g data fmt dm w e).
Qed.

(** C5. For a report type with a generator and a payload the generator
    produces its text [raw] from, [generate_report] returns a document: [raw]
    between the markers of the requested format, the HTML wrapper standing
    in for an unknown format; and the history gains exactly one entry. *)
Theorem generate_report_document rt g data fmt dm w raw :
  rt ∈ report_types →
  get_generator (factory (self w)) rt = Some g →
  generator_text g (strftime (clock w (ticks w)) timestamp_format) data = Ok raw →
  ∃ document entry w',
    generate_report rt data fmt dm w = (Ok (Some document), w')
    ∧ document
      = (if decide (fmt = "pdf")
         then "[PDF FORMAT]" +:+ nl +:+ raw +:+ nl +:+ "[END PDF]"
         else if decide (fmt = "excel")
         then "[EXCEL FORMAT]" +:+ nl +:+ raw +:+ nl +:+ "[END EXCEL]"
         else "<html><body><pre>" +:+ raw +:+ "</pre></body></html>")
    ∧ get_report_history w' = get_report_history w ++ [entry]
    ∧ length (get_report_history w') = S (length (get_report_history w)).
Proof.
  intros _ Hg Hraw.
  destruct (generate_report_ok rt g data fmt dm w raw Hg Hraw)
    as (timestamp & lines & n & ->).
  eexists _, _, _. split; [reflexivity|]. split.
  - unfold get_formatter. by repeat case_decide.
  - unfold get_report_history. simpl. split; [done|].
    rewrite length_app. simpl. lia.
Qed.

(** C8. An output format outside pdf, excel and html gets the HTML
    formatter, whose [format] returns the text in the HTML wrapper, and a
    delivery method outside email, download and cloud gets the download
    delivery.  Both lookups are total functions: they have no raising
    path. *)
Theorem factory_fallbacks f (fmt dm text : string) (w : world ReportSystem) :
  (fmt ∉ output_formats →
   get_formatter f fmt = HtmlFormatter
   ∧ (format (get_formatter f fmt) text w).1
     = Ok ("<html><body><pre>" +:+ text +:+ "</pre></body></html>"))
  ∧ (dm ∉ delivery_methods → get_delivery f dm = DownloadDelivery).
Proof.
  split.
  - intros Hn. by rewrite get_formatter_unknown.
  - apply get_delivery_unknown.
Qed.

(** C10. When [generate_report] returns a document, the entry it has
    appended records the output format and the delivery method as the
    caller passed them; for a format outside pdf, excel and html the
    document is the generated text in the HTML wrapper, and the entry still
    records that format tag. *)
Theorem generate_report_records_tags rt data fmt dm w document w' :
  generate_report rt data fmt dm w = (Ok (Some document), w') →
  ∃ entry,
    get_report_history w' = get_report_history w ++ [entry]
    ∧ entry !! "type" = Some rt
    ∧ entry !! "format" = Some fmt
    ∧ entry !! "delivery" = Some dm
    ∧ (fmt ∉ output_formats →
       ∃ raw, document = "<html><body><pre>" +:+ raw +:+ "</pre></body></html>").
Proof.
  intros Hrun.
  destruct (get_generator (factory (self w)) rt) as [g|] eqn:Hg.
  - destruct (generator_text g (strftime (clock w (ticks w)) timestamp_format) data)
      as [raw|e] eqn:Hraw.
    + destruct (generate_report_ok rt g data fmt dm w raw Hg Hraw)
        as (timestamp & lines & n & Hok).
      rewrite Hok in Hrun. injection Hrun as <- <-.
      eexists. split; [reflexivity|].
      repeat split; [by simplify_map_eq..|].
      intros Hn. exists raw. by rewrite get_formatter_unknown.
    + by rewrite (generate_report_err rt g data fmt dm w e) in Hrun.
  - by rewrite generate_report_none in Hrun.
Qed.

End Ejercicio2_facts.

Lemma result_bind_ok {A B} (a : A) (f : A → result B) : Ok a ≫= f = f a.
Proof. reflexivity. Qed.

(** ** Strings *)

Lemma str_app_assoc (s1 s2 s3 : string) : (s1 +:+ s2) +:+ s3 = s1 +:+ (s2 +:+ s3).
Proof.
  induction s1 as [|c s1 IH]; [done|].
  change (String c ((s1 +:+ s2) +:+ s3) = String c (s1 +:+ (s2 +:+ s3))).
  by rewrite IH.
Qed.

Lemma str_app_nil_r (s : string) : s +:+ "" = s.
Proof.
  induction s as [|c s IH]; [done|].
  change (String c (s +:+ "") = String c s). by rewrite IH.
Qed.

(** ** Ejercicio 2: the generators *)

Section Generator_facts.
Context `{Runtime}.
Import Ejercicio2.

(** The sum of computed items is the sum of their values, when every item
    has one. *)
Lemma sum_from_values {A} (f : A → result num) l acc total :
  sum_from f l acc = Ok total
  ↔ ∃ values, Forall2 (λ x v, f x = Ok v) l values
              ∧ sum_from Ok values acc = Ok total.
Proof.
  revert acc. induction l as [|x l IH]; intros acc; simpl.
  - split.
    + intros Hsum. exists []. by split; [constructor|].
    + by intros (values & ->%Forall2_nil_inv_l & Hsum).
  - split.
    + destruct (f x) as [v|e] eqn:Hv; [|done].
      cbn. destruct (sum_step acc v) as [acc'|e] eqn:Hstep; [|done].
      cbn. intros (values & Hall & Hsum)%IH.
      exists (v :: values). split; [by constructor|].
      cbn. by rewrite Hstep.
    + intros (values & Hall & Hsum).
      apply Forall2_cons_inv_l in Hall as (v & values' & Hv & Hall & ->).
      rewrite Hv. cbn in *.
      destruct (sum_step acc v) as [acc'|e]; [|done].
      cbn in *. apply IH. by exists values'.
Qed.

(** The loop that adds a line per row adds the lines of the rows, in
    order, when every row has one. *)
Lemma append_lines_join {A} (line : A → result string) l text text' :
  append_lines line l text = Ok text'
  ↔ ∃ lines, Forall2 (λ x s, line x = Ok s) l lines
             ∧ text' = text +:+ str_join lines.
Proof.
  revert text. induction l as [|x l IH]; intros text; simpl.
  - split.
    + intros [= <-]. exists []. split; [constructor|].
      by rewrite str_app_nil_r.
    + intros (lines & ->%Forall2_nil_inv_l & ->). by rewrite str_app_nil_r.
  - split.
    + destruct (line x) as [s|e] eqn:Hs; [|done].
      cbn. intros (lines & Hall & ->)%IH.
      exists (s :: lines). split; [by constructor|].
      by rewrite str_app_assoc.
    + intros (lines & Hall & ->).
      apply Forall2_cons_inv_l in Hall as (s & lines' & Hs & Hall & ->).
      rewrite Hs. cbn. apply IH. exists lines'. split; [done|].
      by rewrite str_app_assoc.
Qed.

Lemma sale_line_inv sale line :
  sale_line sale = Ok line
  ↔ ∃ p a shown,
      product sale = Some p ∧ amount sale = Some a
      ∧ num_format_2f a = Ok shown
      ∧ line = "  • Producto: " +:+ p +:+ " - $" +:+ shown +:+ nl.
Proof.
  unfold sale_line. split.
  - destruct (product sale) as [p|]; [|done].
    destruct (amount sale) as [a|]; [|done]. cbn.
    destruct (num_format_2f a) as [shown|] eqn:Hshown; [|done].
    intros [= <-]. by exists p, a, shown.
  - intros (p & a & shown & -> & -> & Hshown & ->). cbn. by rewrite Hshown.
Qed.

Lemma item_line_inv item line :
  item_line item = Ok line
  ↔ ∃ n q,
      name item = Some n ∧ quantity item = Some q
      ∧ line = "  • " +:+ n +:+ " (" +:+ default "General" (category item)
               +:+ "): " +:+ num_str q +:+ " unidades" +:+ nl.
Proof.
  unfold item_line, category_label. split.
  - destruct (name item) as [n|]; [|done].
    destruct (quantity item) as [q|]; [|done]. cbn.
    intros [= <-]. by exists n, q.
  - by intros (n & q & -> & -> & ->).
Qed.

Lemma Forall2_getitem {A B} (field : A → option B) key (l : list A) values :
  Forall2 (λ x v, getitem key (field x) = Ok v) l values
  ↔ Forall2 (λ x v, field x = Some v) l values.
Proof.
  split; intros Hall; (eapply Forall2_impl; [exact Hall|]);
    intros x v; unfold getitem; destruct (field x); naive_solver.
Qed.

(** The number of entries of the set built from a list is the number of
    its distinct elements. *)
Lemma size_list_to_set_distinct (labels distinct : list string) :
  NoDup distinct →
  (∀ c, c ∈ distinct ↔ c ∈ labels) →
  size (list_to_set labels : gset string) = length distinct.
Proof.
  intros Hnodup Hsame.
  rewrite <- (size_list_to_set (C := gset string) distinct) by done.
  f_equal. apply set_eq. intros c. rewrite !elem_of_list_to_set. by rewrite Hsame.
Qed.

(** C6. On a payload with a sales sequence, the sales generator produces
    its text exactly when every sale has a product and an amount and the
    numbers can be summed and printed; the text then shows the sum of the
    amounts of all the sales, taken in input order, to two decimals, the
    number of sales, and one detail line per sale, in input order. *)
Theorem sales_text_report ts data rows text :
  sales data = Some rows →
  sales_text ts data = Ok text
  ↔ ∃ amounts total shown lines,
      Forall2 (λ sale a, amount sale = Some a) rows amounts
      ∧ py_sum Ok amounts = Ok total
      ∧ num_format_2f total = Ok shown
      ∧ Forall2 (λ sale line,
                   ∃ p a s, product sale = Some p ∧ amount sale = Some a
                            ∧ num_format_2f a = Ok s
                            ∧ line = "  • Producto: " +:+ p +:+ " - $" +:+ s +:+ nl)
          rows lines
      ∧ length lines = length rows
      ∧ text
        = banner "           REPORTE DE VENTAS" ts
          +:+ match period data with
              | Some p => "Periodo: " +:+ p +:+ nl
              | None => ""
              end
          +:+ "Total de ventas: $" +:+ shown +:+ nl
          +:+ "Número de transacciones: " +:+ pretty (length rows) +:+ nl +:+ nl
          +:+ "Detalle de ventas:" +:+ nl
          +:+ str_mul "-" 60 +:+ nl
          +:+ str_join lines.
Proof.
  intros Hrows. unfold sales_text. rewrite Hrows.
  change (getitem "sales" (Some rows)) with (Ok rows). split.
  - cbn. destruct (py_sum _ rows) as [total|] eqn:Hsum; [|done]. cbn.
    destruct (num_format_2f total) as [shown|] eqn:Hshown; [|done]. cbn.
    intros (lines & Hlines & ->)%append_lines_join.
    apply sum_from_values in Hsum as (amounts & Hamounts & Hsum).
    apply Forall2_getitem in Hamounts.
    exists amounts, total, shown, lines. repeat split; [done..| | |].
    + eapply Forall2_impl; [done|]. intros sale line. apply sale_line_inv.
    + symmetry. by eapply Forall2_length.
    + destruct (period data); by rewrite ?str_app_nil_r, ?str_app_assoc.
  - intros (amounts & total & shown & lines & Hamounts & Hsum & Hshown
            & Hlines & _ & ->).
    rewrite result_bind_ok.
    assert (py_sum (λ item, getitem "amount" (amount item)) rows = Ok total) as ->.
    { apply sum_from_values. exists amounts. split; [|done].
      by apply Forall2_getitem. }
    cbn. rewrite Hshown. cbn. apply append_lines_join. exists lines. split.
    + eapply Forall2_impl; [done|]. intros sale line. apply sale_line_inv.
    + destruct (period data); by rewrite ?str_app_nil_r, ?str_app_assoc.
Qed.

(** C7. On a payload with an items sequence, the inventory generator
    produces its text exactly when every item has a name and a quantity and
    the quantities can be summed; the text then shows the sum of the
    quantities of all the items, and as the number of categories the number
    of distinct labels among the items, an item without a category counting
    under the label General. *)
Theorem inventory_text_report ts data rows distinct text :
  items data = Some rows →
  NoDup distinct →
  (∀ label, label ∈ distinct
            ↔ ∃ item, item ∈ rows ∧ label = default "General" (category item)) →
  inventory_text ts data = Ok text
  ↔ ∃ quantities total lines,
      Forall2 (λ item q, quantity item = Some q) rows quantities
      ∧ py_sum Ok quantities = Ok total
      ∧ Forall2 (λ item line,
                   ∃ n q, name item = Some n ∧ quantity item = Some q
                          ∧ line = "  • " +:+ n +:+ " ("
                                   +:+ default "General" (category item)
                                   +:+ "): " +:+ num_str q +:+ " unidades" +:+ nl)
          rows lines
      ∧ text
        = banner "           REPORTE DE INVENTARIO" ts
          +:+ "Total de productos: " +:+ num_str total +:+ nl
          +:+ "Categorías: " +:+ pretty (length distinct) +:+ nl +:+ nl
          +:+ "Inventario actual:" +:+ nl
          +:+ str_mul "-" 60 +:+ nl
          +:+ str_join lines.
Proof.
  intros Hrows Hnodup Hdistinct. unfold inventory_text. rewrite Hrows.
  change (getitem "items" (Some rows)) with (Ok rows).
  assert (size (list_to_set (category_label <$> rows) : gset string)
          = length distinct) as Hsize.
  { apply size_list_to_set_distinct; [done|]. intros c.
    rewrite Hdistinct, list_elem_of_fmap. unfold category_label.
    split; intros (item & ? & ?); by exists item. }
  split.
  - cbn. destruct (py_sum _ rows) as [total|] eqn:Hsum; [|done]. cbn.
    intros (lines & Hlines & ->)%append_lines_join.
    apply sum_from_values in Hsum as (quantities & Hquantities & Hsum).
    apply Forall2_getitem in Hquantities.
    exists quantities, total, lines. repeat split; [done..| |].
    + eapply Forall2_impl; [done|]. intros item line. apply item_line_inv.
    + by rewrite Hsize, ?str_app_assoc.
  - intros (quantities & total & lines & Hquantities & Hsum & Hlines & ->).
    rewrite result_bind_ok.
    assert (py_sum (λ item, getitem "quantity" (quantity item)) rows = Ok total)
      as ->.
    { apply sum_from_values. exists quantities. split; [|done].
      by apply Forall2_getitem. }
    cbn. apply append_lines_join. exists lines. split.
    + eapply Forall2_impl; [done|]. intros item line. apply item_line_inv.
    + by rewrite Hsize, ?str_app_assoc.
Qed.

End Generator_facts.

Section Ejercicio2_samples.
#[local] Existing Instance int_runtime.
Import Ejercicio2 Samples.

(** The sum of the runtime of integers is the sum of the integers. *)
Lemma int_sum_from (l : list Z) (acc : Z) :
  sum_from (H := int_runtime) Ok l acc = Ok (acc + foldr Z.add 0 l)%Z.
Proof.
  revert acc. induction l as [|x l IH]; intros acc; simpl.
  - f_equal. lia.
  - rewrite ?result_bind_ok. cbn. rewrite IH. f_equal. lia.
Qed.

(** C2 at the report type taxes. *)
Lemma generate_report_unknown_type_witness :
  generate_report "taxes" sales_data "pdf" "email" reporter0
  = (Ok None, World (self reporter0)
                (stdout reporter0 ++ ["Error: No se pudo generar el reporte"])
                (clock reporter0) (ticks reporter0))
  ∧ get_report_history (generate_report "taxes" sales_data "pdf" "email" reporter0).2
    = get_report_history reporter0.
Proof.
  apply (generate_report_unknown_type (H := int_runtime)). compute_done.
Defined.

(** C3 at a sales report on a payload without sales. *)
Lemma generate_report_generator_failure_witness :
  generate_report "sales" no_data "pdf" "email" reporter0
  = (Err (KeyError "sales"),
     World (self reporter0) (stdout reporter0) (clock reporter0) (S (ticks reporter0)))
  ∧ get_report_history (generate_report "sales" no_data "pdf" "email" reporter0).2
    = get_report_history reporter0.
Proof.
  destruct (generate_report_generator_failure (H := int_runtime) "sales"
              SalesGenerator no_data "pdf" "email" reporter0 eq_refl)
    as [Habsent Hraise].
  apply Hraise, Habsent. reflexivity.
Defined.

(** C5 at the sales sample, as PDF. *)
Lemma generate_report_document_witness :
  ∃ document entry w',
    generate_report "sales" sales_data "pdf" "download" reporter0
    = (Ok (Some document), w')
    ∧ document
      = (if decide ("pdf" = "pdf")
         then "[PDF FORMAT]" +:+ nl +:+ sales_raw +:+ nl +:+ "[END PDF]"
         else if decide ("pdf" = "excel")
         then "[EXCEL FORMAT]" +:+ nl +:+ sales_raw +:+ nl +:+ "[END EXCEL]"
         else "<html><body><pre>" +:+ sales_raw +:+ "</pre></body></html>")
    ∧ get_report_history w' = get_report_history reporter0 ++ [entry]
    ∧ length (get_report_history w') = S (length (get_report_history reporter0)).
Proof.
  apply (generate_report_document (H := int_runtime) "sales" SalesGenerator sales_data
           "pdf" "download" reporter0 sales_raw);
    [compute_done|reflexivity|vm_compute; reflexivity].
Defined.

(** C8 at the format xml and the delivery method fax. *)
Lemma factory_fallbacks_witness :
  (get_formatter ReportFactory_new "xml" = HtmlFormatter
   ∧ (format (get_formatter ReportFactory_new "xml") "hola" reporter0).1
     = Ok ("<html><body><pre>" +:+ "hola" +:+ "</pre></body></html>"))
  ∧ get_delivery ReportFactory_new "fax" = DownloadDelivery.
Proof.
  destruct (factory_fallbacks (H := int_runtime) ReportFactory_new "xml" "fax" "hola"
              reporter0) as [Hformat Hdelivery].
  split; [apply Hformat|apply Hdelivery]; compute_done.
Defined.

(** C10 at the inventory sample with the format xml and the delivery
    method fax. *)
Lemma generate_report_records_tags_witness :
  ∃ entry,
    get_report_history
      (generate_report "inventory" inventory_data "xml" "fax" reporter0).2
    = get_report_history reporter0 ++ [entry]
    ∧ entry !! "type" = Some "inventory"
    ∧ entry !! "format" = Some "xml"
    ∧ entry !! "delivery" = Some "fax"
    ∧ ∃ raw, "<html><body><pre>" +:+ inventory_raw +:+ "</pre></body></html>"
             = "<html><body><pre>" +:+ raw +:+ "</pre></body></html>".
Proof.
  destruct (generate_report_records_tags (H := int_runtime) "inventory"
              inventory_data "xml" "fax" reporter0
              ("<html><body><pre>" +:+ inventory_raw +:+ "</pre></body></html>")
              (generate_report "inventory" inventory_data "xml" "fax" reporter0).2)
    as (entry & Hhist & Htype & Hformat & Hdelivery & Hhtml).
  - vm_compute. reflexivity.
  - exists entry. repeat split; [done..|]. apply Hhtml. compute_done.
Defined.

(** C6 at the sales sample: three sales, 900 + 25 + 120 = 1045. *)
Lemma sales_text_report_witness :
  sales_text stamp0 sales_data
  = Ok (banner "           REPORTE DE VENTAS" stamp0
        +:+ "Periodo: " +:+ "Enero 2024" +:+ nl
        +:+ "Total de ventas: $" +:+ "1045.00" +:+ nl
        +:+ "Número de transacciones: " +:+ "3" +:+ nl +:+ nl
        +:+ "Detalle de ventas:" +:+ nl
        +:+ str_mul "-" 60 +:+ nl
        +:+ str_join ["  • Producto: Laptop HP - $900.00" +:+ nl;
                      "  • Producto: Mouse Logitech - $25.00" +:+ nl;
                      "  • Producto: Teclado - $120.00" +:+ nl]).
Proof.
  apply (sales_text_report (H := int_runtime) stamp0 sales_data
           [sale "Laptop HP" 900; sale "Mouse Logitech" 25; sale "Teclado" 120]);
    [reflexivity|].
  exists [900; 25; 120]%Z, 1045%Z, "1045.00",
    ["  • Producto: Laptop HP - $900.00" +:+ nl;
     "  • Producto: Mouse Logitech - $25.00" +:+ nl;
     "  • Producto: Teclado - $120.00" +:+ nl].
  split; [by repeat constructor|]. split; [reflexivity|]. split; [reflexivity|].
  split; [|by split].
  repeat constructor; eexists _, _, _; by repeat split.
Defined.

(** C7 at the inventory sample: four items, one without a category, three
    distinct labels, 15 + 50 + 30 + 20 = 115 units. *)
Lemma inventory_text_report_witness :
  inventory_text stamp0 inventory_data
  = Ok (banner "           REPORTE DE INVENTARIO" stamp0
        +:+ "Total de productos: " +:+ "115" +:+ nl
        +:+ "Categorías: " +:+ "3" +:+ nl +:+ nl
        +:+ "Inventario actual:" +:+ nl
        +:+ str_mul "-" 60 +:+ nl
        +:+ str_join ["  • Laptop HP (Computadoras): 15 unidades" +:+ nl;
                      "  • Mouse Logitech (Accesorios): 50 unidades" +:+ nl;
                      "  • Cable (General): 30 unidades" +:+ nl;
                      "  • Teclado (Accesorios): 20 unidades" +:+ nl]).
Proof.
  apply (inventory_text_report (H := int_runtime) stamp0 inventory_data
           [item "Laptop HP" (Some "Computadoras") 15;
            item "Mouse Logitech" (Some "Accesorios") 50;
            item "Cable" None 30;
            item "Teclado" (Some "Accesorios") 20]
           ["Computadoras"; "Accesorios"; "General"]).
  - reflexivity.
  - compute_done.
  - intros label. split.
    + intros Hin. repeat (apply elem_of_cons in Hin as [->|Hin]).
      * eexists. split; [apply list_elem_of_here|reflexivity].
      * eexists. split; [apply list_elem_of_further, list_elem_of_here|reflexivity].
      * eexists. split;
          [apply list_elem_of_further, list_elem_of_further, list_elem_of_here
          |reflexivity].
      * by apply elem_of_nil in Hin.
    + intros (it & Hin & ->).
      repeat (apply elem_of_cons in Hin as [->|Hin]); [compute_done..|].
      by apply elem_of_nil in Hin.
  - exists [15; 50; 30; 20]%Z, 115%Z,
      ["  • Laptop HP (Computadoras): 15 unidades" +:+ nl;
       "  • Mouse Logitech (Accesorios): 50 unidades" +:+ nl;
       "  • Cable (General): 30 unidades" +:+ nl;
       "  • Teclado (Accesorios): 20 unidades" +:+ nl].
    split; [by repeat constructor|]. split; [reflexivity|]. split; [|reflexivity].
    repeat constructor; eexists _, _; by repeat split.
Defined.

End Ejercicio2_samples.

(** * Further properties *)

(** ** The console is never read *)

Section Frame_facts.
Context `{Runtime} {Self : Type}.
Implicit Types w : world Self.

Lemma with_stdout_twice out out' w :
  with_stdout out (with_stdout out' w) = with_stdout out w.
Proof. reflexivity. Qed.

Lemma blind_lift {A} (r : result A) : console_blind (lift r : M Self A).
Proof. intros w. unfold with_stdout. simpl. rewrite app_nil_r. by destruct w. Qed.

Lemma blind_ret {A} (a : A) : console_blind (mret a : M Self A).
Proof. apply (blind_lift (Ok a)). Qed.

Lemma blind_print (s : string) : console_blind (print s : M Self unit).
Proof. intros w. reflexivity. Qed.

Lemma blind_now : console_blind (datetime_now : M Self datetime).
Proof. intros w. unfold with_stdout. simpl. by rewrite app_nil_r. Qed.

Lemma blind_get_self : console_blind (get_self : M Self Self).
Proof. intros w. unfold with_stdout. simpl. rewrite app_nil_r. by destruct w. Qed.

Lemma blind_put_self (s : Self) : console_blind (put_self s).
Proof. intros w. unfold with_stdout. simpl. by rewrite app_nil_r. Qed.

Lemma blind_bind {A B} (m : M Self A) (f : A → M Self B) :
  console_blind m → (∀ a, console_blind (f a)) → console_blind (m ≫= f).
Proof.
  intros Hm Hf w. rewrite !bind_run, (Hm w).
  destruct (m (with_stdout [] w)) as [[a|e] w0]; [|done]. simpl.
  rewrite (Hf a (with_stdout _ w0)), (Hf a w0), !with_stdout_twice.
  simpl. by rewrite (assoc_L (++)).
Qed.

Lemma blind_for_each {A} (l : list A) (body : A → M Self unit) :
  (∀ x, console_blind (body x)) → console_blind (for_each l body).
Proof.
  intros Hbody. induction l as [|x l IH]; simpl.
  - apply blind_ret.
  - by apply blind_bind.
Qed.

End Frame_facts.

(** Proves that a computation built from the operations of the monad is
    blind to the console. *)
Ltac blind :=
  repeat first
    [ apply blind_lift | apply blind_ret | apply blind_print | apply blind_now
    | apply blind_get_self | apply blind_put_self
    | apply blind_for_each; intros ?
    | apply blind_bind; [|intros ?]
    | progress cbv zeta
    | match goal with
      | |- console_blind (match ?x with _ => _ end) => destruct x
      end ].

(** ** Ejercicio 1: more on the senders and the orchestrator *)

Section Ejercicio1_more.
Context `{Runtime}.
Import Ejercicio1.
Implicit Types w : world OrderNotificationSystem.

Lemma supported_dec tag :
  (∃ field, (tag, field) ∈ channel_fields) ∨ tag ∉ channel_fields.*1.
Proof.
  destruct (decide (tag ∈ channel_fields.*1)) as [Hin|Hn]; [left|by right].
  apply list_elem_of_fmap in Hin as ([tag' field] & -> & Hin). by exists field.
Qed.

Lemma channel_field_unique tag field field' :
  (tag, field) ∈ channel_fields → (tag, field') ∈ channel_fields → field = field'.
Proof.
  unfold channel_fields. intros Hin Hin'.
  repeat (apply elem_of_cons in Hin as [[= -> ->]|Hin]);
    try (by apply elem_of_nil in Hin);
    repeat (apply elem_of_cons in Hin' as [[= <-]|Hin']); try done;
    by apply elem_of_nil in Hin'.
Qed.

(** One turn of the loop on a supported tag whose field is absent. *)
Lemma notify_missing_field oid cust tot nm tag field w :
  (tag, field) ∈ channel_fields →
  cust !! "name" = Some nm →
  cust !! field = None →
  notify oid cust tot tag w = (Err (KeyError field), w).
Proof.
  intros Hin Hnm Hnone.
  destruct (get_sender_supported _ _ Hin) as (sender & Hs & <- & <-).
  unfold notify, dict_getitem. rewrite Hs, get_strategy_ok, Hnm. run.
  by rewrite bind_run, send_missing.
Qed.

(** One turn of the loop on a supported tag whose field is present, with
    the entry it appends. *)
Lemma notify_entry oid cust tot nm addr tag field strategy body w :
  (tag, field) ∈ channel_fields →
  cust !! "name" = Some nm →
  cust !! field = Some addr →
  get_strategy tag = Ok strategy →
  create_message strategy oid nm tot !! "body" = Some body →
  ∃ lines,
    notify oid cust tot tag w
    = (Ok (),
       World {| notifications_sent :=
                  notifications_sent (self w)
                  ++ [ {[ "type" := tag; "to" := addr; "message" := body;
                          "timestamp" := isoformat (clock w (ticks w)) ]} ] |}
         (stdout w ++ lines) (clock w) (S (ticks w))).
Proof.
  intros Hin Hnm Haddr Hstrategy Hbody.
  destruct (get_sender_supported _ _ Hin) as (sender & Hs & <- & <-).
  unfold notify, dict_getitem. rewrite Hs, Hstrategy, Hnm. run.
  destruct (send_ok sender cust _ addr body w Haddr Hbody) as [lines Hsend].
  rewrite bind_run, Hsend. unfold notifications_sent_append. run.
  by exists lines.
Qed.

(** One turn of the loop, whatever the tag and the customer record: either
    it appends one entry of the type of the tag, or it raises and leaves the
    state as it was. *)
Lemma notify_cases oid cust tot tag w :
  (∃ entry lines,
     notify oid cust tot tag w
     = (Ok (), World {| notifications_sent := notifications_sent (self w) ++ [entry] |}
                 (stdout w ++ lines) (clock w) (S (ticks w)))
     ∧ entry !! "type" = Some tag)
  ∨ (∃ e, notify oid cust tot tag w = (Err e, w)).
Proof.
  destruct (supported_dec tag) as [[field Hin]|Hn].
  - destruct (cust !! "name") as [nm|] eqn:Hnm.
    + destruct (cust !! field) as [addr|] eqn:Haddr.
      * left. destruct (notify_supported oid cust tot nm addr tag field w)
          as (entry & lines & ? & ? & _); [done..|]. by exists entry, lines.
      * right. eexists. by eapply notify_missing_field.
    + right. destruct (get_sender_supported _ _ Hin) as (sender & Hs & _).
      unfold notify, dict_getitem. rewrite Hs, get_strategy_ok, Hnm. run.
      by eexists.
  - right. eexists. by apply notify_unsupported.
Qed.

(** The loop, whatever the tags: entries are appended for a prefix of the
    tags, all of them when the loop ends normally and not all when it
    raises. *)
Lemma for_each_notify_cases oid cust tot tags w :
  ∃ r entries lines,
    for_each tags (notify oid cust tot) w
    = (r, World {| notifications_sent := notifications_sent (self w) ++ entries |}
            (stdout w ++ lines) (clock w) (length entries + ticks w))
    ∧ Forall2 (λ tag entry, entry !! "type" = Some tag)
        (take (length entries) tags) entries
    ∧ (if r is Ok _ then length entries = length tags
       else length entries < length tags).
Proof.
  revert w. induction tags as [|tag tags IH]; intros w.
  - exists (Ok ()), [], []. rewrite !app_nil_r. split; [|by split; [constructor|]].
    by destruct w as [[?] ? ? ?].
  - simpl. rewrite bind_run.
    destruct (notify_cases oid cust tot tag w) as [(entry & lines & -> & Htype)|[e ->]].
    + edestruct IH as (r & entries & lines' & -> & Hall & Hlen). simpl.
      exists r, (entry :: entries), (lines ++ lines').
      rewrite <- !(assoc_L (++)). simpl. rewrite Nat.add_succ_r.
      split; [done|]. split; [by constructor|].
      destruct r; lia.
    + exists (Err e), [], []. rewrite !app_nil_r. simpl.
      split; [by destruct w as [[?] ? ? ?]|]. split; [constructor|lia].
Qed.

(** The loop on supported tags whose fields are present, with what each
    entry holds. *)
Lemma for_each_notify_entries oid cust tot nm tags w :
  cust !! "name" = Some nm →
  Forall (λ tag, ∃ field, (tag, field) ∈ channel_fields ∧ is_Some (cust !! field)) tags →
  ∃ entries lines,
    for_each tags (notify oid cust tot) w
    = (Ok (), World {| notifications_sent := notifications_sent (self w) ++ entries |}
                (stdout w ++ lines) (clock w) (length tags + ticks w))
    ∧ length entries = length tags
    ∧ ∀ k tag, tags !! k = Some tag →
        ∃ entry field strategy,
          entries !! k = Some entry
          ∧ (tag, field) ∈ channel_fields
          ∧ get_strategy tag = Ok strategy
          ∧ entry !! "type" = Some tag
          ∧ entry !! "to" = cust !! field
          ∧ entry !! "message" = create_message strategy oid nm tot !! "body"
          ∧ entry !! "timestamp" = Some (isoformat (clock w (k + ticks w))).
Proof.
  intros Hnm Htags. revert w.
  induction Htags as [|tag tags (field & Hin & [addr Haddr]) _ IH]; intros w.
  - exists [], []. rewrite !app_nil_r. split; [by destruct w as [[?] ? ? ?]|].
    split; [done|]. intros k tag Hk. by rewrite lookup_nil in Hk.
  - destruct (create_message_body
                (if decide (tag = "email") then EmailMessageStrategy
                 else ShortMessageStrategy) oid nm tot) as [body Hbody].
    destruct (notify_entry oid cust tot nm addr tag field _ body w Hin Hnm Haddr
                (get_strategy_ok tag) Hbody) as [lines Hrun].
    simpl. rewrite bind_run, Hrun.
    edestruct IH as (entries & lines' & -> & Hlen & Hall). simpl.
    eexists (_ :: entries), (lines ++ lines').
    rewrite <- !(assoc_L (++)), Nat.add_succ_r. split; [done|].
    split; [simpl; by rewrite Hlen|].
    intros [|k] tag' Hk; simpl in Hk.
    + injection Hk as <-. eexists _, field, _. split; [reflexivity|].
      split; [done|]. split; [apply get_strategy_ok|].
      rewrite Haddr, Hbody. by simplify_map_eq.
    + destruct (Hall k tag' Hk) as (entry & field' & strategy & ? & ? & ? & ? & ? & ? & Hts).
      exists entry, field', strategy. repeat split; try done.
      rewrite Hts. simpl. by rewrite Nat.add_succ_r.
Qed.

(** [process_order] returns normally only when the order has its fields
    and the customer a name. *)
Lemma process_order_ok_inv od tags w w' :
  process_order od tags w = (Ok (), w') →
  ∃ oid cust tot nm,
    order_id od = Some oid ∧ customer od = Some cust ∧ total od = Some tot
    ∧ cust !! "name" = Some nm.
Proof.
  unfold process_order, dict_getitem.
  destruct (order_id od) as [oid|]; [|by run].
  destruct (customer od) as [cust|]; [|by run].
  destruct (total od) as [tot|]; [|by run]. run.
  destruct (cust !! "name") as [nm|] eqn:Hnm; [|by run].
  intros _. exists oid, cust, tot, nm. by repeat split.
Qed.

Lemma blind_send sender (cust msg : gmap string string) :
  console_blind (send sender cust msg : M OrderNotificationSystem _).
Proof.
  destruct sender; simpl;
    unfold EmailSender_send, SMSSender_send, PushSender_send; blind.
Qed.

Lemma blind_notify oid cust tot tag : console_blind (notify oid cust tot tag).
Proof.
  unfold notify, notifications_sent_append.
  repeat (apply blind_bind; [|intros ?]); try apply blind_send; blind.
Qed.

Lemma blind_process_order od tags : console_blind (process_order od tags).
Proof.
  unfold process_order.
  repeat (apply blind_bind; [|intros ?]);
    try (apply blind_for_each; intros ?; apply blind_notify); blind.
Qed.

(** X1. When every tag is supported and finds its field, [process_order]
    returns normally with one entry per tag, in input order; the [k]-th
    entry records its tag, the customer field of that tag, the body of the
    message of the strategy of that tag, and the [k]-th reading of the
    clock; the clock is read once per tag. *)
Theorem process_order_all_supported od oid cust tot nm tags w :
  order_id od = Some oid → customer od = Some cust → total od = Some tot →
  cust !! "name" = Some nm →
  Forall (λ tag, ∃ field, (tag, field) ∈ channel_fields
                          ∧ is_Some (cust !! field)) tags →
  ∃ entries w',
    process_order od tags w = (Ok (), w')
    ∧ get_notification_history w' = get_notification_history w ++ entries
    ∧ length entries = length tags
    ∧ ticks w' = length tags + ticks w
    ∧ ∀ k tag, tags !! k = Some tag →
        ∃ entry field strategy,
          entries !! k = Some entry
          ∧ (tag, field) ∈ channel_fields
          ∧ get_strategy tag = Ok strategy
          ∧ entry !! "type" = Some tag
          ∧ entry !! "to" = cust !! field
          ∧ entry !! "message" = create_message strategy oid nm tot !! "body"
          ∧ entry !! "timestamp" = Some (isoformat (clock w (k + ticks w))).
Proof.
  intros Hoid Hcust Htot Hnm Htags.
  rewrite (process_order_loop od oid cust tot nm) by done.
  edestruct (for_each_notify_entries oid cust tot nm tags) as
    (entries & lines & -> & Hlen & Hall); [done..|].
  exists entries. eexists. split; [reflexivity|]. by repeat split.
Qed.

(** X2. Whatever the order and the tags, [process_order] only appends to
    the history: the entries it adds are one for each tag of a prefix of the
    tags, of the type of its tag; all the tags when it returns normally, not
    all of them when it raises. *)
Theorem process_order_history_grows od tags w :
  ∃ entries,
    get_notification_history (process_order od tags w).2
    = get_notification_history w ++ entries
    ∧ Forall2 (λ tag entry, entry !! "type" = Some tag)
        (take (length entries) tags) entries
    ∧ (if (process_order od tags w).1 is Ok _
       then length entries = length tags
       else (length entries ≤ length tags)%nat).
Proof.
  destruct (order_id od) as [oid|] eqn:Hoid; [destruct (customer od) as [cust|] eqn:Hcust;
    [destruct (total od) as [tot|] eqn:Htot; [destruct (cust !! "name") as [nm|] eqn:Hnm|]|]|].
  - rewrite (process_order_loop od oid cust tot nm) by done.
    edestruct (for_each_notify_cases oid cust tot tags) as
      (r & entries & lines & -> & Hall & Hlen).
    exists entries. split; [done|]. split; [done|]. simpl. destruct r; lia.
  - exists []. unfold process_order, dict_getitem. rewrite Hoid, Hcust, Htot. run.
    rewrite Hnm. run. unfold get_notification_history. simpl.
    rewrite app_nil_r. split; [done|]. split; [constructor|lia].
  - exists []. unfold process_order. rewrite Hoid, Hcust, Htot. run.
    unfold get_notification_history. simpl.
    rewrite app_nil_r. split; [done|]. split; [constructor|lia].
  - exists []. unfold process_order. rewrite Hoid, Hcust. run.
    unfold get_notification_history. simpl.
    rewrite app_nil_r. split; [done|]. split; [constructor|lia].
  - exists []. unfold process_order. rewrite Hoid. run.
    unfold get_notification_history. simpl.
    rewrite app_nil_r. split; [done|]. split; [constructor|lia].
Qed.

(** X3. An order without one of its fields: [process_order] raises the
    [KeyError] of the first of order_id, customer, total that is absent
    before it prints anything; a customer record without a name raises after
    the first two lines of the heading.  In every case no tag is looked at
    and the history is as it was. *)
Theorem process_order_missing_order_field od tags w :
  (order_id od = None →
   process_order od tags w = (Err (KeyError "order_id"), w))
  ∧ (is_Some (order_id od) → customer od = None →
     process_order od tags w = (Err (KeyError "customer"), w))
  ∧ (is_Some (order_id od) → is_Some (customer od) → total od = None →
     process_order od tags w = (Err (KeyError "total"), w))
  ∧ (∀ oid cust,
       order_id od = Some oid → customer od = Some cust → is_Some (total od) →
       cust !! "name" = None →
       process_order od tags w
       = (Err (KeyError "name"),
          World (self w)
            (stdout w ++ [nl +:+ str_mul "=" 50; "Procesando pedido #" +:+ oid])
            (clock w) (ticks w))).
Proof.
  unfold process_order, dict_getitem. repeat split.
  - intros ->. by run.
  - intros [oid ->] ->. by run.
  - intros [oid ->] [cust ->] ->. by run.
  - intros oid cust -> -> [tot ->] Hnm. run. rewrite Hnm. run.
    by rewrite <- ?(assoc_L (++)).
Qed.

(** X4. A supported tag whose customer field is absent, after tags that
    are supported and find theirs: [process_order] raises the [KeyError] of
    that field, in the state that processing the earlier tags alone ends in;
    their entries stay, the failing tag prints nothing and later tags are
    not looked at. *)
Theorem process_order_missing_contact_field
    od oid cust tot nm pre tag field post w :
  order_id od = Some oid → customer od = Some cust → total od = Some tot →
  cust !! "name" = Some nm →
  Forall (λ tag, ∃ field, (tag, field) ∈ channel_fields
                          ∧ is_Some (cust !! field)) pre →
  (tag, field) ∈ channel_fields →
  cust !! field = None →
  ∃ w',
    process_order od (pre ++ tag :: post) w = (Err (KeyError field), w')
    ∧ process_order od pre w = (Ok (), w')
    ∧ length (get_notification_history w')
      = length (get_notification_history w) + length pre.
Proof.
  intros Hoid Hcust Htot Hnm Hpre Hin Hnone.
  rewrite !(process_order_loop od oid cust tot nm) by done.
  rewrite for_each_app, bind_run.
  edestruct (for_each_notify_supported oid cust tot nm pre) as
    (entries & lines & -> & Hall); [done..|].
  eexists. split; [|split; [reflexivity|]].
  - simpl. by rewrite bind_run, (notify_missing_field oid cust tot nm tag field).
  - unfold get_notification_history. simpl. rewrite length_app.
    by rewrite (Forall2_length _ _ _ Hall).
Qed.

(** X5. A sender that cannot send has no effect: when the customer record
    lacks the field of the sender, or has it but the message lacks a body,
    [send] raises [KeyError], of the customer field in the first case and of
    body in the second, and the state is as it was: nothing is printed and
    the clock is not read. *)
Theorem send_failure sender (cust msg : gmap string string) w :
  cust !! recipient_field sender = None ∨ msg !! "body" = None →
  send sender cust msg w
  = (Err (KeyError (if cust !! recipient_field sender is Some _
                    then "body" else recipient_field sender)), w).
Proof.
  intros Hmissing.
  destruct (cust !! recipient_field sender) as [addr|] eqn:Haddr.
  - destruct Hmissing as [|Hbody]; [done|].
    destruct sender; simpl in Haddr; simpl;
      unfold EmailSender_send, SMSSender_send, PushSender_send, dict_getitem;
      rewrite Haddr, Hbody; by run.
  - by apply send_missing.
Qed.

(** X6. Splitting the tags over two calls: after a call on [tags1] that
    returned normally, a call on [tags2] for the same order ends with the
    same result, the same history and the same number of clock readings as
    one call on [tags1 ++ tags2] from the start. *)
Theorem process_order_split od tags1 tags2 w w1 :
  process_order od tags1 w = (Ok (), w1) →
  (process_order od tags2 w1).1 = (process_order od (tags1 ++ tags2) w).1
  ∧ get_notification_history (process_order od tags2 w1).2
    = get_notification_history (process_order od (tags1 ++ tags2) w).2
  ∧ ticks (process_order od tags2 w1).2
    = ticks (process_order od (tags1 ++ tags2) w).2.
Proof.
  intros Hfirst.
  destruct (process_order_ok_inv _ _ _ _ Hfirst) as
    (oid & cust & tot & nm & Hoid & Hcust & Htot & Hnm).
  rewrite (process_order_loop od oid cust tot nm) in Hfirst by done.
  rewrite !(process_order_loop od oid cust tot nm) by done.
  rewrite for_each_app, bind_run, Hfirst.
  rewrite (blind_for_each tags2 _ (blind_notify oid cust tot) w1).
  rewrite (blind_for_each tags2 _ (blind_notify oid cust tot) (World _ _ _ _)).
  done.
Qed.

(** [process_order] never reads the console: started with [out] on the
    console it returns the same result and leaves the same history and clock
    as started with an empty console, and the lines it prints there come
    after [out]. *)
Lemma process_order_console od tags out w :
  process_order od tags (with_stdout out w)
  = ((process_order od tags (with_stdout [] w)).1,
     with_stdout (out ++ stdout (process_order od tags (with_stdout [] w)).2)
       (process_order od tags (with_stdout [] w)).2).
Proof. apply (blind_process_order od tags (with_stdout out w)). Qed.

End Ejercicio1_more.

(** ** Ejercicio 2: more on the generators, the channels and the orchestrator *)

Section Ejercicio2_more.
Context `{Runtime}.
Import Ejercicio2.
Implicit Types w : world ReportSystem.

Lemma str_length_app (s1 s2 : string) :
  String.length (s1 +:+ s2) = String.length s1 + String.length s2.
Proof.
  induction s1 as [|c s1 IH]; [done|].
  change (S (String.length (s1 +:+ s2)) = S (String.length s1 + String.length s2)).
  by rewrite IH.
Qed.

(** A common suffix can be cancelled. *)
Lemma str_app_inj_r (s1 s2 t : string) : s1 +:+ t = s2 +:+ t → s1 = s2.
Proof.
  revert s2. induction s1 as [|c s1 IH]; intros [|c' s2] Heq; [done| | |].
  - change ("" +:+ t) with t in Heq. apply (f_equal String.length) in Heq.
    rewrite (str_length_app (String c' s2)) in Heq. simpl in Heq. lia.
  - change ("" +:+ t) with t in Heq. apply (f_equal String.length) in Heq.
    rewrite (str_length_app (String c s1)) in Heq. simpl in Heq. lia.
  - change (String c (s1 +:+ t) = String c' (s2 +:+ t)) in Heq.
    injection Heq as -> Heq. f_equal. by apply IH.
Qed.

(** The sum stops at the first item that has no value. *)
Lemma sum_from_first_failure {A} (f : A → result num) pre bad post values acc total e :
  Forall2 (λ x v, f x = Ok v) pre values →
  sum_from Ok values acc = Ok total →
  f bad = Err e →
  sum_from f (pre ++ bad :: post) acc = Err e.
Proof.
  intros Hall. revert acc. induction Hall as [|x v pre values Hv _ IH]; intros acc.
  - intros _ Hbad. simpl. by rewrite Hbad.
  - simpl. rewrite Hv, !result_bind_ok.
    destruct (sum_step acc v) as [acc'|]; [|done]. rewrite !result_bind_ok. apply IH.
Qed.

Lemma size_list_to_set_le (l : list string) :
  (size (list_to_set l : gset string) ≤ length l)%nat.
Proof.
  induction l as [|x l IH].
  - done.
  - change (list_to_set (x :: l) : gset string) with ({[x]} ∪ list_to_set l : gset string).
    rewrite size_union_alt, size_singleton. simpl.
    assert (list_to_set l ∖ {[x]} ⊆ (list_to_set l : gset string)) as Hsub
      by (intros y Hy; by apply elem_of_difference in Hy as [? _]).
    apply subseteq_size in Hsub. lia.
Qed.

(** What the inventory generator produces, when it produces a text. *)
Lemma inventory_text_inv timestamp data rows text :
  items data = Some rows →
  inventory_text timestamp data = Ok text →
  ∃ total details,
    py_sum (λ item, getitem "quantity" (quantity item)) rows = Ok total
    ∧ text
      = banner "           REPORTE DE INVENTARIO" timestamp
        +:+ "Total de productos: " +:+ num_str total +:+ nl
        +:+ "Categorías: "
        +:+ pretty (size (list_to_set (category_label <$> rows) : gset string))
        +:+ nl +:+ nl
        +:+ "Inventario actual:" +:+ nl
        +:+ str_mul "-" 60 +:+ nl
        +:+ details.
Proof.
  intros Hrows. unfold inventory_text. rewrite Hrows.
  change (getitem "items" (Some rows)) with (Ok rows). rewrite !result_bind_ok.
  destruct (py_sum _ rows) as [total|] eqn:Hsum; [|done]. rewrite !result_bind_ok.
  intros (lines & _ & ->)%append_lines_join.
  exists total, (str_join lines). split; [done|]. by rewrite ?str_app_assoc.
Qed.

Lemma blind_generate g data : console_blind (generate g data : M ReportSystem _).
Proof. unfold generate. blind. Qed.

Lemma blind_format formatter text :
  console_blind (format formatter text : M ReportSystem _).
Proof. unfold format. blind. Qed.

Lemma blind_deliver delivery document meta :
  console_blind (deliver delivery document meta : M ReportSystem _).
Proof. unfold deliver. blind. Qed.

Lemma blind_generate_report rt data fmt dm :
  console_blind (generate_report rt data fmt dm).
Proof.
  unfold generate_report, reports_generated_append.
  apply blind_bind; [blind|]. intros s. cbv zeta.
  destruct (get_generator (factory s) rt); [|blind].
  repeat (apply blind_bind; [|intros ?]);
    first [apply blind_generate|apply blind_format|apply blind_deliver|blind].
Qed.

(** X7. The financial generator produces its text exactly when the payload
    has income and expenses and the two amounts and their difference can be
    printed; the text then shows the income, the expenses and, as the
    balance, income minus expenses, each to two decimals. *)
Theorem financial_text_report timestamp data text :
  financial_text timestamp data = Ok text
  ↔ ∃ inc exp balance shown_inc shown_exp shown_balance,
      income data = Some inc ∧ expenses data = Some exp
      ∧ num_format_2f inc = Ok shown_inc
      ∧ num_format_2f exp = Ok shown_exp
      ∧ num_sub inc exp = Ok balance
      ∧ num_format_2f balance = Ok shown_balance
      ∧ text
        = banner "           REPORTE FINANCIERO" timestamp
          +:+ "Ingresos: $" +:+ shown_inc +:+ nl
          +:+ "Gastos: $" +:+ shown_exp +:+ nl
          +:+ "Balance: $" +:+ shown_balance +:+ nl.
Proof.
  unfold financial_text. split.
  - destruct (income data) as [inc|]; [|done].
    destruct (expenses data) as [exp|]; [|done]. cbn.
    destruct (num_format_2f inc) as [s1|] eqn:H1; [|done]. cbn.
    destruct (num_format_2f exp) as [s2|] eqn:H2; [|done]. cbn.
    destruct (num_sub inc exp) as [balance|] eqn:Hsub; [|done]. cbn.
    destruct (num_format_2f balance) as [s3|] eqn:H3; [|done]. cbn.
    intros [= <-]. exists inc, exp, balance, s1, s2, s3.
    repeat split; try done. by rewrite ?str_app_assoc.
  - intros (inc & exp & balance & s1 & s2 & s3 & -> & -> & H1 & H2 & Hsub & H3 & ->).
    cbn. rewrite H1. cbn. rewrite H2. cbn. rewrite Hsub. cbn. rewrite H3. cbn.
    by rewrite ?str_app_assoc.
Qed.

(** Each generator reads only its own part of the payload: the sales
    generator the period and the sales, the inventory generator the items,
    the financial generator the income and the expenses.  Two payloads that
    agree there give the same text or the same exception. *)
Lemma generator_text_own_fields g timestamp data data' :
  match g with
  | SalesGenerator => period data = period data' ∧ sales data = sales data'
  | InventoryGenerator => items data = items data'
  | FinancialGenerator =>
      income data = income data' ∧ expenses data = expenses data'
  end →
  generator_text g timestamp data = generator_text g timestamp data'.
Proof.
  destruct g; simpl; unfold sales_text, inventory_text, financial_text.
  - by intros [-> ->].
  - by intros ->.
  - by intros [-> ->].
Qed.

(** X8. The sales generator sums the amounts before it writes a detail
    line: a sale without an amount, after sales whose amounts can be summed,
    makes it raise the [KeyError] of amount, whether or not those earlier
    sales have a product. *)
Theorem sales_text_amount_first timestamp data pre bad post amounts partial :
  sales data = Some (pre ++ bad :: post) →
  Forall2 (λ sale a, amount sale = Some a) pre amounts →
  py_sum Ok amounts = Ok partial →
  amount bad = None →
  sales_text timestamp data = Err (KeyError "amount").
Proof.
  intros Hrows Hpre Hpartial Hbad. unfold sales_text. rewrite Hrows.
  change (getitem "sales" (Some (pre ++ bad :: post))) with (Ok (pre ++ bad :: post)).
  rewrite !result_bind_ok. unfold py_sum.
  rewrite (sum_from_first_failure _ pre bad post amounts sum_start partial
             (KeyError "amount")); [done| |done|by rewrite Hbad].
  by apply Forall2_getitem.
Qed.

(** X9. On empty sequences the generators still produce a report: the
    sales report shows the sum of nothing, zero transactions and no detail
    line, provided that sum can be printed; the inventory report shows the
    sum of nothing, zero categories and no item line. *)
Theorem generator_text_empty timestamp data :
  (∀ shown,
     sales data = Some [] →
     num_format_2f (sum_value sum_start) = Ok shown →
     sales_text timestamp data
     = Ok (banner "           REPORTE DE VENTAS" timestamp
           +:+ match period data with
               | Some p => "Periodo: " +:+ p +:+ nl
               | None => ""
               end
           +:+ "Total de ventas: $" +:+ shown +:+ nl
           +:+ "Número de transacciones: " +:+ "0" +:+ nl +:+ nl
           +:+ "Detalle de ventas:" +:+ nl
           +:+ str_mul "-" 60 +:+ nl))
  ∧ (items data = Some [] →
     inventory_text timestamp data
     = Ok (banner "           REPORTE DE INVENTARIO" timestamp
           +:+ "Total de productos: " +:+ num_str (sum_value sum_start) +:+ nl
           +:+ "Categorías: " +:+ "0" +:+ nl +:+ nl
           +:+ "Inventario actual:" +:+ nl
           +:+ str_mul "-" 60 +:+ nl)).
Proof.
  split.
  - intros shown Hrows Hshown. unfold sales_text. rewrite Hrows.
    cbn. rewrite Hshown. cbn.
    destruct (period data); by rewrite ?str_app_nil_r, ?str_app_assoc.
  - intros Hrows. unfold inventory_text. rewrite Hrows. cbn.
    by rewrite ?str_app_assoc.
Qed.

(** X10. A run of [generate_report] that has its generator and its text:
    the formatter prints its notice, then the delivery channel prints, then
    the entry is appended, then the closing line, the document and a rule
    are printed.  The clock is read by the generator, by the download
    channel for the file name, which ends in the format tag as passed, and
    last for the timestamp of the entry: three readings with the download
    channel, two with the others. *)
Theorem generate_report_trace rt g data fmt dm w raw :
  get_generator (factory (self w)) rt = Some g →
  generator_text g (strftime (clock w (ticks w)) timestamp_format) data = Ok raw →
  let formatter := get_formatter (factory (self w)) fmt in
  let delivery := get_delivery (factory (self w)) dm in
  let document := envelope formatter raw in
  let readings := if delivery is DownloadDelivery then 3 else 2 in
  generate_report rt data fmt dm w
  = (Ok (Some document),
     World {| reports_generated :=
                reports_generated (self w)
                ++ [ {[ "type" := rt; "format" := fmt; "delivery" := dm;
                        "timestamp" :=
                          strftime (clock w (readings - 1 + ticks w))
                            timestamp_format ]} ];
              factory := factory (self w) |}
       (stdout w
        ++ [format_notice formatter]
        ++ match delivery with
           | EmailDelivery =>
               ["📧 Enviando reporte por email...";
                "   Destinatario: admin@company.com"]
           | DownloadDelivery =>
               ["💾 Reporte disponible para descarga: report_" +:+ rt +:+ "_"
                +:+ strftime (clock w (1 + ticks w)) "%Y%m%d_%H%M%S"
                +:+ "." +:+ fmt]
           | CloudDelivery =>
               ["☁️  Subiendo reporte a la nube...";
                "   URL: https://cloud.company.com/reports/" +:+ rt]
           end
        ++ [nl +:+ "✅ Reporte generado exitosamente" +:+ nl; document;
            nl +:+ str_mul "=" 60 +:+ nl])
       (clock w) (readings + ticks w)).
Proof.
  intros Hg Hraw formatter delivery document readings.
  unfold generate_report. run. rewrite Hg. unfold generate, format. run.
  rewrite Hraw. run. fold formatter delivery document.
  subst readings. unfold reports_generated_append.
  destruct delivery; unfold deliver, dict_getitem; run.
  - by rewrite <- ?(assoc_L (++)).
  - rewrite lookup_insert_eq. run.
    rewrite lookup_insert_ne, lookup_singleton_eq by done. run.
    by rewrite <- ?(assoc_L (++)).
  - rewrite lookup_insert_eq. run. by rewrite <- ?(assoc_L (++)).
Qed.

(** X11. Whatever its arguments, [generate_report] keeps the factory and
    only appends to the history: exactly one entry when it returns a
    document, none when it returns [None] or raises. *)
Theorem generate_report_history_grows rt data fmt dm w :
  factory (self (generate_report rt data fmt dm w).2) = factory (self w)
  ∧ ((∃ document entry,
        (generate_report rt data fmt dm w).1 = Ok (Some document)
        ∧ get_report_history (generate_report rt data fmt dm w).2
          = get_report_history w ++ [entry])
     ∨ (((generate_report rt data fmt dm w).1 = Ok None
         ∨ ∃ e, (generate_report rt data fmt dm w).1 = Err e)
        ∧ get_report_history (generate_report rt data fmt dm w).2
          = get_report_history w)).
Proof.
  destruct (get_generator (factory (self w)) rt) as [g|] eqn:Hg.
  - destruct (generator_text g (strftime (clock w (ticks w)) timestamp_format) data)
      as [raw|e] eqn:Hraw.
    + destruct (generate_report_ok rt g data fmt dm w raw Hg Hraw)
        as (timestamp & lines & n & ->).
      split; [done|]. left. by eexists _, _.
    + rewrite (generate_report_err rt g data fmt dm w e) by done.
      split; [done|]. right. split; [|done]. right. by exists e.
  - rewrite generate_report_none by done. split; [done|]. right. by split; [left|].
Qed.

(** X12. The delivery channels on meta data that lacks a key.  The e-mail
    channel does not read the meta data.  Without type the download channel
    raises at once, and the cloud channel raises after its first line is
    printed.  With type and without format the download channel raises after
    it has read the clock, and the cloud channel, which does not read format,
    delivers. *)
Theorem deliver_incomplete_meta {Self} document (meta : gmap string string)
    (w : world Self) :
  deliver EmailDelivery document meta w
  = (Ok (), World (self w)
              (stdout w ++ ["📧 Enviando reporte por email...";
                            "   Destinatario: admin@company.com"])
              (clock w) (ticks w))
  ∧ (meta !! "type" = None →
     deliver DownloadDelivery document meta w = (Err (KeyError "type"), w)
     ∧ deliver CloudDelivery document meta w
       = (Err (KeyError "type"),
          World (self w) (stdout w ++ ["☁️  Subiendo reporte a la nube..."])
            (clock w) (ticks w)))
  ∧ (∀ type, meta !! "type" = Some type → meta !! "format" = None →
     deliver DownloadDelivery document meta w
     = (Err (KeyError "format"),
        World (self w) (stdout w) (clock w) (S (ticks w)))
     ∧ deliver CloudDelivery document meta w
       = (Ok (), World (self w)
                   (stdout w ++ ["☁️  Subiendo reporte a la nube...";
                                 "   URL: https://cloud.company.com/reports/"
                                 +:+ type])
                   (clock w) (ticks w))).
Proof.
  unfold deliver, dict_getitem. split; [|split].
  - run. by rewrite <- ?(assoc_L (++)).
  - intros Htype. rewrite Htype. by run.
  - intros type Htype Hformat. rewrite Htype. run. rewrite Hformat. run.
    by rewrite <- ?(assoc_L (++)).
Qed.

(** X13. A document determines its formatter and its text: two equal
    documents were wrapped by the same formatter around the same text. *)
Theorem envelope_inj f1 f2 (text1 text2 : string) :
  envelope f1 text1 = envelope f2 text2 → f1 = f2 ∧ text1 = text2.
Proof.
  destruct f1, f2; unfold envelope; intros Heq;
    try (exfalso; apply (f_equal (λ s, String.substring 0 2 s)) in Heq;
         discriminate Heq).
  - split; [done|].
    apply (inj (String.app "[PDF FORMAT]")), (inj (String.app nl)) in Heq.
    by apply str_app_inj_r in Heq.
  - split; [done|].
    apply (inj (String.app "[EXCEL FORMAT]")), (inj (String.app nl)) in Heq.
    by apply str_app_inj_r in Heq.
  - split; [done|].
    apply (inj (String.app "<html><body><pre>")) in Heq.
    by apply str_app_inj_r in Heq.
Qed.

(** X14. The number of categories an inventory report shows is at most the
    number of items, is zero only for an empty inventory, and is at most one
    when no item names a category. *)
Theorem inventory_category_count timestamp data rows text :
  items data = Some rows →
  inventory_text timestamp data = Ok text →
  ∃ (total : num) (count : nat) (details : string),
    text
    = banner "           REPORTE DE INVENTARIO" timestamp
      +:+ "Total de productos: " +:+ num_str total +:+ nl
      +:+ "Categorías: " +:+ pretty count +:+ nl +:+ nl
      +:+ "Inventario actual:" +:+ nl
      +:+ str_mul "-" 60 +:+ nl
      +:+ details
    ∧ (count ≤ length rows)%nat
    ∧ (count = 0 ↔ rows = [])
    ∧ (Forall (λ item, category item = None) rows → (count ≤ 1)%nat).
Proof.
  intros Hrows Htext.
  destruct (inventory_text_inv timestamp data rows text Hrows Htext)
    as (total & details & _ & ->).
  eexists total, _, details. split; [reflexivity|]. split; [|split].
  - etrans; [apply size_list_to_set_le|]. by rewrite length_fmap.
  - rewrite size_empty_iff. split.
    + intros Hempty. destruct rows as [|item rows]; [done|].
      exfalso. apply (not_elem_of_empty (C := gset string) (category_label item)).
      apply Hempty, elem_of_list_to_set. apply list_elem_of_here.
    + by intros ->.
  - intros Hnone.
    assert (list_to_set (category_label <$> rows) ⊆ ({["General"]} : gset string))
      as Hsub.
    { intros label. rewrite elem_of_list_to_set, list_elem_of_fmap, elem_of_singleton.
      intros (item & -> & Hin). unfold category_label.
      by rewrite (proj1 (Forall_forall _ _) Hnone item Hin). }
    apply subseteq_size in Hsub. by rewrite size_singleton in Hsub.
Qed.

(** [generate_report] never reads the console: started with [out] on
    the console it returns the same result and leaves the same report
    system and clock as started with an empty console, and the lines it
    prints there come after [out]. *)
Lemma generate_report_console rt data fmt dm out w :
  generate_report rt data fmt dm (with_stdout out w)
  = ((generate_report rt data fmt dm (with_stdout [] w)).1,
     with_stdout
       (out ++ stdout (generate_report rt data fmt dm (with_stdout [] w)).2)
       (generate_report rt data fmt dm (with_stdout [] w)).2).
Proof. apply (blind_generate_report rt data fmt dm (with_stdout out w)). Qed.

End Ejercicio2_more.

Section Ejercicio1_more_samples.
#[local] Existing Instance int_runtime.
Import Ejercicio1 Samples MoreSamples.

(** X1 at the order of Ana and the three channels. *)
Lemma process_order_all_supported_witness :
  ∃ entries w',
    process_order order_ana ["email"; "sms"; "push"] notifier0 = (Ok (), w')
    ∧ get_notification_history w' = get_notification_history notifier0 ++ entries
    ∧ length entries = 3
    ∧ ticks w' = 3
    ∧ ∀ k tag, ["email"; "sms"; "push"] !! k = Some tag →
        ∃ entry field strategy,
          entries !! k = Some entry
          ∧ (tag, field) ∈ channel_fields
          ∧ get_strategy tag = Ok strategy
          ∧ entry !! "type" = Some tag
          ∧ entry !! "to" = ana !! field
          ∧ entry !! "message"
            = create_message strategy "ORD-001" "Ana" 150%Z !! "body"
          ∧ entry !! "timestamp" = Some (isoformat (clock0 (k + 0))).
Proof.
  apply (process_order_all_supported (H := int_runtime) order_ana "ORD-001" ana
           150%Z "Ana" ["email"; "sms"; "push"] notifier0);
    try reflexivity.
  repeat constructor.
  - exists "email". split; [compute_done|by eexists].
  - exists "phone". split; [compute_done|by eexists].
  - exists "device_id". split; [compute_done|by eexists].
Defined.

(** X3 at the order whose customer has no name. *)
Lemma process_order_missing_order_field_witness :
  process_order order_no_name ["email"] notifier0
  = (Err (KeyError "name"),
     World (self notifier0)
       (stdout notifier0 ++ [nl +:+ str_mul "=" 50; "Procesando pedido #" +:+ "ORD-002"])
       (clock notifier0) (ticks notifier0)).
Proof.
  destruct (process_order_missing_order_field (H := int_runtime) order_no_name
              ["email"] notifier0) as (_ & _ & _ & Hname).
  apply (Hname "ORD-002" {[ "email" := "a@x.com" ]});
    first [reflexivity | by eexists].
Defined.

(** X4 at the customer without an e-mail address and the tags sms, email,
    push. *)
Lemma process_order_missing_contact_field_witness :
  ∃ w',
    process_order order_no_email (["sms"] ++ ("email" :: ["push"])) notifier0
    = (Err (KeyError "email"), w')
    ∧ process_order order_no_email ["sms"] notifier0 = (Ok (), w')
    ∧ length (get_notification_history w')
      = length (get_notification_history notifier0) + length ["sms"].
Proof.
  apply (process_order_missing_contact_field (H := int_runtime) order_no_email
           "ORD-003" {[ "name" := "Carlos"; "phone" := "+34" ]} 75%Z "Carlos"
           ["sms"] "email" "email" ["push"] notifier0);
    try reflexivity.
  - repeat constructor. exists "phone". split; [compute_done|by eexists].
  - compute_done.
Defined.

(** X5 at the e-mail sender and a customer with a telephone only. *)
Lemma send_failure_witness :
  send EmailSender {[ "phone" := "+34" ]} {[ "body" := "hola" ]} notifier0
  = (Err (KeyError "email"), notifier0).
Proof.
  rewrite (send_failure (H := int_runtime) EmailSender {[ "phone" := "+34" ]}
             {[ "body" := "hola" ]} notifier0) by (left; reflexivity).
  reflexivity.
Defined.

(** X6 at the order of Ana: e-mail first, then sms and push. *)
Lemma process_order_split_witness :
  (process_order order_ana ["sms"; "push"] notifier1).1
  = (process_order order_ana (["email"] ++ ["sms"; "push"]) notifier0).1
  ∧ get_notification_history (process_order order_ana ["sms"; "push"] notifier1).2
    = get_notification_history
        (process_order order_ana (["email"] ++ ["sms"; "push"]) notifier0).2
  ∧ ticks (process_order order_ana ["sms"; "push"] notifier1).2
    = ticks (process_order order_ana (["email"] ++ ["sms"; "push"]) notifier0).2.
Proof.
  apply (process_order_split (H := int_runtime) order_ana ["email"] ["sms"; "push"]
           notifier0 notifier1).
  vm_compute. reflexivity.
Defined.

End Ejercicio1_more_samples.

Section Ejercicio2_more_samples.
#[local] Existing Instance int_runtime.
Import Ejercicio2 Samples MoreSamples.

(** X7 at the financial sample: 50000 - 32000 = 18000. *)
Lemma financial_text_report_witness :
  financial_text stamp0 financial_data
  = Ok (banner "           REPORTE FINANCIERO" stamp0
        +:+ "Ingresos: $" +:+ "50000.00" +:+ nl
        +:+ "Gastos: $" +:+ "32000.00" +:+ nl
        +:+ "Balance: $" +:+ "18000.00" +:+ nl).
Proof.
  apply (financial_text_report (H := int_runtime) stamp0 financial_data).
  exists 50000%Z, 32000%Z, 18000%Z, "50000.00", "32000.00", "18000.00".
  by repeat split.
Defined.

(** X8 at three sales of which the first has no product and the second no
    amount. *)
Lemma sales_text_amount_first_witness :
  sales_text stamp0 sales_without_amount = Err (KeyError "amount").
Proof.
  apply (sales_text_amount_first (H := int_runtime) stamp0 sales_without_amount
           [sale_without_product] sale_without_amount
           [sale "Teclado" 120] [900%Z] 900%Z);
    try reflexivity.
  by repeat constructor.
Defined.

(** X9 at the payload with no sale and no item. *)
Lemma generator_text_empty_witness :
  sales_text stamp0 empty_data
  = Ok (banner "           REPORTE DE VENTAS" stamp0
        +:+ ""
        +:+ "Total de ventas: $" +:+ "0.00" +:+ nl
        +:+ "Número de transacciones: " +:+ "0" +:+ nl +:+ nl
        +:+ "Detalle de ventas:" +:+ nl
        +:+ str_mul "-" 60 +:+ nl)
  ∧ inventory_text stamp0 empty_data
    = Ok (banner "           REPORTE DE INVENTARIO" stamp0
          +:+ "Total de productos: " +:+ "0" +:+ nl
          +:+ "Categorías: " +:+ "0" +:+ nl +:+ nl
          +:+ "Inventario actual:" +:+ nl
          +:+ str_mul "-" 60 +:+ nl).
Proof.
  destruct (generator_text_empty (H := int_runtime) stamp0 empty_data)
    as [Hsales Hitems].
  split; [apply (Hsales "0.00")|apply Hitems]; reflexivity.
Defined.

(** X10 at the sales sample, as PDF, with the delivery method fax: the
    download channel delivers and the clock is read three times. *)
Lemma generate_report_trace_witness :
  (generate_report "sales" sales_data "pdf" "fax" reporter0).1
  = Ok (Some (envelope PdfFormatter sales_raw))
  ∧ ticks (generate_report "sales" sales_data "pdf" "fax" reporter0).2 = 3
  ∧ stdout (generate_report "sales" sales_data "pdf" "fax" reporter0).2 !! 1
    = Some "💾 Reporte disponible para descarga: report_sales_20240115_103001.pdf".
Proof.
  rewrite (generate_report_trace (H := int_runtime) "sales" SalesGenerator
             sales_data "pdf" "fax" reporter0 sales_raw);
    [|reflexivity|vm_compute; reflexivity].
  repeat split; vm_compute; reflexivity.
Defined.

(** X12 at meta data with a type and no format. *)
Lemma deliver_incomplete_meta_witness :
  deliver DownloadDelivery "doc" {[ "type" := "sales" ]} reporter0
  = (Err (KeyError "format"),
     World (self reporter0) (stdout reporter0) (clock reporter0)
       (S (ticks reporter0)))
  ∧ deliver CloudDelivery "doc" {[ "type" := "sales" ]} reporter0
    = (Ok (), World (self reporter0)
                (stdout reporter0
                 ++ ["☁️  Subiendo reporte a la nube...";
                     "   URL: https://cloud.company.com/reports/" +:+ "sales"])
                (clock reporter0) (ticks reporter0)).
Proof.
  destruct (deliver_incomplete_meta (H := int_runtime) "doc" {[ "type" := "sales" ]}
              reporter0) as (_ & _ & Hformat).
  apply Hformat; reflexivity.
Defined.

(** X13 at the document of the format xml, which is the HTML document. *)
Lemma envelope_inj_witness :
  get_formatter ReportFactory_new "xml" = HtmlFormatter ∧ "hola" = "hola".
Proof.
  apply (envelope_inj (get_formatter ReportFactory_new "xml") HtmlFormatter
           "hola" "hola").
  reflexivity.
Defined.

(** X14 at two items without a category: one category, General. *)
Lemma inventory_category_count_witness :
  ∃ (total : Z) (count : nat) (details : string),
    text_of InventoryGenerator plain_inventory
    = banner "           REPORTE DE INVENTARIO" stamp0
      +:+ "Total de productos: " +:+ pretty total +:+ nl
      +:+ "Categorías: " +:+ pretty count +:+ nl +:+ nl
      +:+ "Inventario actual:" +:+ nl
      +:+ str_mul "-" 60 +:+ nl
      +:+ details
    ∧ (count ≤ 2)%nat
    ∧ (count = 0 ↔ [item "Cable" None 30; item "Tornillo" None 100] = [])
    ∧ (Forall (λ it, category it = None)
         [item "Cable" None 30; item "Tornillo" None 100] → (count ≤ 1)%nat).
Proof.
  apply (inventory_category_count (H := int_runtime) stamp0 plain_inventory
           [item "Cable" None 30; item "Tornillo" None 100]
           (text_of InventoryGenerator plain_inventory));
    [reflexivity|vm_compute; reflexivity].
Defined.

End Ejercicio2_more_samples.
